(** * MONGODB-OIDC credential workflows of the Node.js MongoDB driver

    A shallow embedding of
    - [src/cmap/auth/mongodb_oidc.ts] (workflow registry and dispatcher),
    - [src/cmap/auth/mongodb_oidc/callback_workflow.ts],
    - [src/cmap/auth/mongodb_oidc/token_cache.ts],
    - [src/cmap/auth/mongodb_oidc/gcp_machine_workflow.ts],
    - [src/cmap/auth/mongodb_oidc/aws_machine_workflow.ts],
    followed by the properties established about them.

    Asynchronous functions are modelled as computations in a state and
    error monad: a rejected promise or a [throw] is an [Err], the state
    carries the token cache handed to the workflow, the process
    environment, the file system and the trace of calls made to the
    outside (server commands, user callbacks, file reads, HTTP requests).
    One authentication attempt is one sequential flow; interleaving of
    several attempts on one cache is not modelled. *)

From stdpp Require Import gmap strings list fin_maps.
From Stdlib Require Import ZArith.

Set Warnings "-register-all".

(** ** JavaScript values *)

Module JS.

(** The values that flow through the workflows. An object is its own
    data properties together with its prototype ([JNull] ends the chain). *)
Inductive value : Type :=
| JUndefined
| JNull
| JBool (b : bool)
| JNum (n : Z)
| JNaN
| JStr (s : string)
| JFun (name : string)
| JObj (own : gmap string value) (proto : value).

(** [typeof v] *)
Definition typeof (v : value) : string :=
  match v with
  | JUndefined => "undefined"
  | JNull => "object"
  | JBool _ => "boolean"
  | JNum _ | JNaN => "number"
  | JStr _ => "string"
  | JFun _ => "function"
  | JObj _ _ => "object"
  end.

(** [v == null] *)
Definition nullish (v : value) : bool :=
  match v with
  | JUndefined | JNull => true
  | _ => false
  end.

(** [!!v] *)
Definition truthy (v : value) : bool :=
  match v with
  | JUndefined | JNull | JNaN => false
  | JBool b => b
  | JNum n => negb (n =? 0)%Z
  | JStr s => negb (bool_decide (s = ""))
  | JFun _ | JObj _ _ => true
  end.

(** [k in v], for [v] an object: own properties, then the prototype chain. *)
Fixpoint has_property (v : value) (k : string) : bool :=
  match v with
  | JObj own proto =>
      match own !! k with
      | Some _ => true
      | None => has_property proto k
      end
  | _ => false
  end.

(** [Object.getOwnPropertyNames(v)] *)
Definition getOwnPropertyNames (v : value) : list string :=
  match v with
  | JObj own _ => (map_to_list own).*1
  | _ => []
  end.

(** The value found for [k] along the prototype chain, [undefined] when
    there is none. *)
Fixpoint lookup_chain (v : value) (k : string) : value :=
  match v with
  | JObj own proto =>
      match own !! k with
      | Some x => x
      | None => lookup_chain proto k
      end
  | _ => JUndefined
  end.

(** [Object.prototype]: the prototype of object literals. *)
Definition Object_prototype : value :=
  JObj (list_to_map
          ((fun n => (n, JFun n)) <$>
             ["constructor"; "hasOwnProperty"; "isPrototypeOf";
              "propertyIsEnumerable"; "toLocaleString"; "toString";
              "valueOf"]))
       JNull.

(** An object literal [{ k1: v1, ... }]. *)
Definition literal (props : gmap string value) : value :=
  JObj props Object_prototype.

(** [v.k = x] on an object with data properties. *)
Definition set_property (v : value) (k : string) (x : value) : value :=
  match v with
  | JObj own proto => JObj (<[k := x]> own) proto
  | _ => v
  end.

End JS.

Import JS.

(** ** Errors and results *)

(** The error classes thrown by the modelled code, a [TypeError] of the
    language, and [Rejected] for a failure reported by an outside
    collaborator (server, user callback, file system, HTTP). *)
Inductive Error : Type :=
| MongoInvalidArgumentError (message : string)
| MongoMissingCredentialsError (message : string)
| MongoDriverError (message : string)
| MongoGCPError (message : string)
| MongoAWSError (message : string)
| TypeError (message : string)
| Rejected (reason : value).

Inductive Result (A : Type) : Type :=
| Ok (a : A)
| Err (e : Error).
Arguments Ok {A} a.
Arguments Err {A} e.

(** [v.k]: reading a property of [undefined] or [null] throws. The
    prototypes of primitive values carry none of the names read here. *)
Definition get_property (v : value) (k : string) : Result value :=
  match v with
  | JUndefined =>
      Err (TypeError ("Cannot read properties of undefined (reading '" +:+ k +:+ "')"))
  | JNull =>
      Err (TypeError ("Cannot read properties of null (reading '" +:+ k +:+ "')"))
  | _ => Ok (lookup_chain v k)
  end.

(** [v?.k] *)
Definition get_property_opt (v : value) (k : string) : value :=
  if nullish v then JUndefined else lookup_chain v k.

(** ** The outside world *)

(** [MongoDBNamespace] of [utils.ts]. *)
Record MongoDBNamespace : Type := {
  db : string;
  collection : option string
}.

(** [OIDCCallbackParams]. The [AbortSignal] of [timeoutContext] is
    carried as its delay in milliseconds. *)
Record OIDCCallbackParams : Type := {
  timeoutContext : Z;
  version : Z;
  idpInfo : value;
  refreshToken : option string
}.

(** Options of [request] in [utils.ts], as far as they are used. *)
Record RequestOptions : Type := {
  json : bool;
  headers : list (string * string)
}.

(** A call made to an outside collaborator. *)
Inductive Event : Type :=
| EvCommand (namespace : MongoDBNamespace) (command : value)
| EvCallback (params : OIDCCallbackParams)
| EvReadFile (path : string) (encoding : string)
| EvRequest (url : string) (options : RequestOptions).

(** *** token_cache.ts *)

Module TokenCache.

Record t : Type := { tokenResult : value }.

Definition hasToken (c : t) : bool := truthy (tokenResult c).

Definition get (c : t) : Result value :=
  if negb (truthy (tokenResult c))
  then Err (MongoDriverError "no token")
  else Ok (tokenResult c).

Definition put (c : t) (result : value) : t := {| tokenResult := result |}.

Definition remove (c : t) : t := {| tokenResult := JUndefined |}.

(** [new TokenCache()] *)
Definition new : t := {| tokenResult := JUndefined |}.

End TokenCache.

(** The state an authentication attempt runs in: the cache passed as the
    optional [cache] argument ([None] when the caller passes none), the
    process environment, the files, and the calls made so far. *)
Record World : Type := {
  cache : option TokenCache.t;
  env : gmap string string;
  files : gmap string string;
  trace : list Event
}.

Definition emit (ev : Event) (w : World) : World :=
  {| cache := cache w; env := env w; files := files w;
     trace := trace w ++ [ev] |}.

Definition with_cache (c : option TokenCache.t) (w : World) : World :=
  {| cache := c; env := env w; files := files w; trace := trace w |}.

(** ** The monad of asynchronous functions *)

Definition M (A : Type) : Type := World -> Result A * World.

Definition ret {A} (a : A) : M A := fun w => (Ok a, w).

Definition throw {A} (e : Error) : M A := fun w => (Err e, w).

Definition bind {A B} (m : M A) (k : A -> M B) : M B :=
  fun w =>
    match m w with
    | (Ok a, w') => k a w'
    | (Err e, w') => (Err e, w')
    end.

Definition lift {A} (r : Result A) : M A := fun w => (r, w).

Declare Scope async_scope.
Delimit Scope async_scope with async.
Notation "x <- m ;; k" := (bind m (fun x => k))
  (at level 100, m at next level, right associativity) : async_scope.
Notation "m ;;; k" := (bind m (fun _ => k))
  (at level 100, right associativity) : async_scope.
#[local] Open Scope async_scope.

(** [cache?.hasToken()], as the condition of an [if]. *)
Definition cache_hasToken : M bool :=
  fun w => (Ok (from_option TokenCache.hasToken false (cache w)), w).

(** [cache.get()] *)
Definition cache_get : M value :=
  fun w =>
    match cache w with
    | Some c => (TokenCache.get c, w)
    | None => (Err (TypeError "Cannot read properties of undefined (reading 'get')"), w)
    end.

(** [cache?.put(result)] *)
Definition cache_put (result : value) : M unit :=
  fun w => (Ok tt, with_cache ((fun c => TokenCache.put c result) <$> cache w) w).

(** [cache?.remove()] *)
Definition cache_remove : M unit :=
  fun w => (Ok tt, with_cache (TokenCache.remove <$> cache w) w).

(** ** Credentials *)

(** A user callback: its answer may depend on everything that happened
    before it is called; a rejection is an [Err]. *)
Definition OIDCCallbackFunction : Type :=
  World -> OIDCCallbackParams -> Result value.

(** [AuthMechanismProperties] of [mongo_credentials.ts], the properties
    read by the workflows. *)
Record AuthMechanismProperties : Type := {
  ENVIRONMENT : option string;
  OIDC_CALLBACK : option OIDCCallbackFunction;
  OIDC_HUMAN_CALLBACK : option OIDCCallbackFunction;
  TOKEN_AUDIENCE : option string
}.

Record MongoCredentials : Type := {
  username : string;
  source : string;
  mechanismProperties : AuthMechanismProperties
}.

(** [Connection], as far as it is used: [command(ns, cmd, options)]. *)
Record Connection : Type := {
  command : World -> MongoDBNamespace -> value -> Result value
}.

(** [await connection.command(ns, cmd, undefined)] *)
Definition connection_command (connection : Connection)
    (namespace : MongoDBNamespace) (cmd : value) : M value :=
  fun w => (command connection w namespace cmd, emit (EvCommand namespace cmd) w).

(** [await callback(params)] *)
Definition call_callback (callback : OIDCCallbackFunction)
    (params : OIDCCallbackParams) : M value :=
  fun w => (callback w params, emit (EvCallback params) w).

(** ** mongodb_oidc.ts: registry and dispatcher *)

(** The workflow instances. The classes have no fields, an instance is
    its class. *)
Inductive Workflow : Type :=
| CallbackWorkflow
| AwsMachineWorkflow
| AzureMachineWorkflow
| GCPMachineWorkflow.

(** [OIDC_WORKFLOWS], filled by four [set] calls. *)
Definition OIDC_WORKFLOWS : gmap string Workflow :=
  <["gcp" := GCPMachineWorkflow]>
    (<["azure" := AzureMachineWorkflow]>
       (<["aws" := AwsMachineWorkflow]>
          (<["callback" := CallbackWorkflow]> ∅))).

(** An interpolation [${x}] of an optional string. *)
Definition interpolate (x : option string) : string :=
  default "undefined" x.

(** [x || fallback] on an optional string. *)
Definition or_else (x : option string) (fallback : string) : string :=
  match x with
  | Some s => if truthy (JStr s) then s else fallback
  | None => fallback
  end.

Definition getWorkflow (credentials : MongoCredentials) : Result Workflow :=
  let providerName := ENVIRONMENT (mechanismProperties credentials) in
  match OIDC_WORKFLOWS !! or_else providerName "callback" with
  | None =>
      Err (MongoInvalidArgumentError
             ("Could not load workflow for provider " +:+
              interpolate (ENVIRONMENT (mechanismProperties credentials))))
  | Some workflow => Ok workflow
  end.

(** ** callback_workflow.ts *)

(** The current version of OIDC implementation. *)
Definition OIDC_VERSION : Z := 1%Z.

(** 5 minutes in milliseconds *)
Definition HUMAN_TIMEOUT_MS : Z := 300000%Z.

(** Properties allowed on results of callbacks. *)
Definition RESULT_PROPERTIES : list string :=
  ["accessToken"; "expiresInSeconds"; "refreshToken"].

Definition CALLBACK_RESULT_ERROR : string :=
  "User provided OIDC callbacks must return a valid object with an accessToken.".

Definition NO_CALLBACK : string :=
  "No OIDC_CALLBACK or OIDC_HUMAN_CALLBACK provided for callback workflow.".

(** The OIDC callback information. The [callback] field holds whatever
    the mechanism property held. *)
Record OIDCCallbackInfo : Type := {
  callback : option OIDCCallbackFunction;
  isHumanWorkflow : bool
}.

(** [!x] on an optional function: a function is truthy, [undefined] is not. *)
Definition not_ {A} (x : option A) : bool :=
  match x with
  | Some _ => false
  | None => true
  end.

Definition getCallback (mechanismProperties : AuthMechanismProperties)
    : Result OIDCCallbackInfo :=
  if not_ (OIDC_CALLBACK mechanismProperties)
     || not_ (OIDC_HUMAN_CALLBACK mechanismProperties)
  then Err (MongoMissingCredentialsError NO_CALLBACK)
  else if negb (not_ (OIDC_CALLBACK mechanismProperties))
  then Ok {| callback := OIDC_CALLBACK mechanismProperties;
             isHumanWorkflow := false |}
  else Ok {| callback := OIDC_HUMAN_CALLBACK mechanismProperties;
             isHumanWorkflow := true |}.

(** [RESULT_PROPERTIES.includes(prop)] *)
Definition includes (l : list string) (prop : string) : bool :=
  bool_decide (prop ∈ l).

Definition isCallbackResultInvalid (tokenResult : value) : bool :=
  if nullish tokenResult || negb (bool_decide (typeof tokenResult = "object"))
  then true
  else if negb (has_property tokenResult "accessToken")
  then true
  else negb (forallb (includes RESULT_PROPERTIES) (getOwnPropertyNames tokenResult)).

(** [await callbackInfo.callback(params)] *)
Definition call_callbackInfo (callbackInfo : OIDCCallbackInfo)
    (params : OIDCCallbackParams) : M value :=
  match callback callbackInfo with
  | Some f => call_callback f params
  | None => throw (TypeError "callbackInfo.callback is not a function")
  end.

(** The [params] built by [fetchAccessToken]. *)
Definition callback_params (idpInfo : value) (callbackInfo : OIDCCallbackInfo)
    : OIDCCallbackParams :=
  {| timeoutContext :=
       if isHumanWorkflow callbackInfo then HUMAN_TIMEOUT_MS else HUMAN_TIMEOUT_MS;
     version := OIDC_VERSION;
     idpInfo := idpInfo;
     refreshToken := None |}.

Section CallbackWorkflow.

(** [ns] of [utils.ts]. *)
Variable ns : string -> MongoDBNamespace.

(** [startCommandDocument] and [finishCommandDocument] of
    [command_builders.ts]: pure builders of the two conversation
    messages. The start command is a fresh object literal, given by its
    properties. *)
Variable startCommandDocument : MongoCredentials -> gmap string value.
Variable finishCommandDocument : value -> value -> value.

(** [BSON.deserialize] of the [bson] package. *)
Variable BSON_deserialize : value -> Result value.

(** Get the document to add for speculative authentication. *)
Definition speculativeAuth (credentials : MongoCredentials) : M value :=
  let document := literal (startCommandDocument credentials) in
  let document := set_property document "db" (JStr (source credentials)) in
  ret (literal {[ "speculativeAuthenticate" := document ]}).

(** Starts the callback authentication process. *)
Definition startAuthentication (connection : Connection)
    (credentials : MongoCredentials) (response : value) : M value :=
  if truthy (get_property_opt response "speculativeAuthenticate")
  then
    result <- lift (get_property response "speculativeAuthenticate") ;;
    ret result
  else
    result <- connection_command connection (ns (source credentials))
                (literal (startCommandDocument credentials)) ;;
    ret result.

(** Finishes the callback authentication process. *)
Definition finishAuthentication (connection : Connection)
    (credentials : MongoCredentials) (tokenResult : value)
    (conversationId : value) : M value :=
  accessToken <- lift (get_property tokenResult "accessToken") ;;
  result <- connection_command connection (ns (source credentials))
              (finishCommandDocument accessToken conversationId) ;;
  ret result.

(** Fetches an access token using the callback. *)
Definition fetchAccessToken (connection : Connection)
    (credentials : MongoCredentials) (idpInfo : value)
    (callbackInfo : OIDCCallbackInfo) : M value :=
  let params := callback_params idpInfo callbackInfo in
  result <- call_callbackInfo callbackInfo params ;;
  if isCallbackResultInvalid result
  then throw (MongoMissingCredentialsError CALLBACK_RESULT_ERROR)
  else ret result.

(** Execute the OIDC callback workflow. [response] is [JUndefined] when
    the caller passes none. *)
Definition execute (connection : Connection) (credentials : MongoCredentials)
    (response : value) : M value :=
  callbackInfo <- lift (getCallback (mechanismProperties credentials)) ;;
  startDocument <- startAuthentication connection credentials response ;;
  conversationId <- lift (get_property startDocument "conversationId") ;;
  payload <- lift (get_property startDocument "payload") ;;
  buffer <- lift (get_property payload "buffer") ;;
  idpInfo <- lift (BSON_deserialize buffer) ;;
  tokenResult <-
    (has <- cache_hasToken ;;
     if has
     then cache_get
     else
       tokenResult <- fetchAccessToken connection credentials idpInfo callbackInfo ;;
       cache_put tokenResult ;;;
       ret tokenResult) ;;
  result <- finishAuthentication connection credentials tokenResult conversationId ;;
  ret result.

(** Reauthenticate the callback workflow. *)
Definition reauthenticate (connection : Connection)
    (credentials : MongoCredentials) : M value :=
  (* Reauthentication should always remove the access token. *)
  cache_remove ;;;
  execute connection credentials JUndefined.

End CallbackWorkflow.

(** ** Machine workflows *)

(** [AccessToken] of [machine_workflow.ts]. *)
Record AccessToken : Type := {
  access_token : string;
  expires_in : option Z
}.

(** [!x] on an optional string: [undefined] and the empty string are falsy. *)
Definition not_str (x : option string) : bool :=
  match x with
  | Some s => negb (truthy (JStr s))
  | None => true
  end.

(** *** aws_machine_workflow.ts *)

Module Aws.

(** Error for when the token is missing in the environment. *)
Definition TOKEN_MISSING_ERROR : string :=
  "AWS_WEB_IDENTITY_TOKEN_FILE must be set in the environment.".

(** [process.env.NAME] *)
Definition process_env (name : string) : M (option string) :=
  fun w => (Ok (env w !! name), w).

(** [await fs.promises.readFile(path, encoding)]: the contents of the
    file as a string, a rejection when there is no such file. *)
Definition readFile (path encoding : string) : M string :=
  fun w =>
    (match files w !! path with
     | Some contents => Ok contents
     | None =>
         Err (Rejected (JStr ("ENOENT: no such file or directory, open '"
                              +:+ path +:+ "'")))
     end,
     emit (EvReadFile path encoding) w).

(** Get the token from the environment. *)
Definition getToken : M AccessToken :=
  tokenFile <- process_env "AWS_WEB_IDENTITY_TOKEN_FILE" ;;
  if not_str tokenFile
  then throw (MongoAWSError TOKEN_MISSING_ERROR)
  else
    token <- readFile (default "" tokenFile) "utf8" ;;
    ret {| access_token := token; expires_in := None |}.

End Aws.

(** *** gcp_machine_workflow.ts *)

(** A [URL] object: the address up to its query, and the entries of its
    [searchParams]. *)
Record URL : Type := {
  address : string;
  searchParams : list (string * string)
}.

(** [url.searchParams.append(name, value)] *)
Definition searchParams_append (url : URL) (name value : string) : URL :=
  {| address := address url;
     searchParams := searchParams url ++ [(name, value)] |}.

(** The first value paired with [name]. *)
Fixpoint first_value (name : string) (entries : list (string * string))
    : option string :=
  match entries with
  | [] => None
  | (k, v) :: rest => if decide (k = name) then Some v else first_value name rest
  end.

(** [url.searchParams.get(name)] *)
Definition searchParams_get (url : URL) (name : string) : option string :=
  first_value name (searchParams url).

(** [options.headers[name]] *)
Definition header (options : RequestOptions) (name : string) : option string :=
  first_value name (headers options).

Module Gcp.

(** GCP base URL. *)
Definition GCP_BASE_URL : string :=
  "http://metadata/computeMetadata/v1/instance/service-accounts/default/identity".

(** GCP request headers. *)
Definition GCP_HEADERS : list (string * string) :=
  [("Metadata-Flavor", "Google")].

(** Error for when the token audience is missing in the environment. *)
Definition TOKEN_AUDIENCE_MISSING_ERROR : string :=
  "TOKEN_AUDIENCE must be set in the auth mechanism properties when ENVIRONMENT is gcp.".

(** [new URL(input)] for an input without query and fragment. *)
Definition new_URL (input : string) : URL :=
  {| address := input; searchParams := [] |}.

Section Request.

(** [url.toString()], the serialisation of the platform. *)
Variable URL_toString : URL -> string.

(** The HTTP exchange behind [request] of [utils.ts]: the body answered
    to a GET of the address with the options, or a failure. *)
Variable http_get : World -> string -> RequestOptions -> Result string.

(** [await request(uri, options)] *)
Definition request (uri : string) (options : RequestOptions) : M string :=
  fun w => (http_get w uri options, emit (EvRequest uri options) w).

(** Hit the GCP endpoint to get the token data. *)
Definition getGcpTokenData (tokenAudience : string) : M AccessToken :=
  let url := new_URL GCP_BASE_URL in
  let url := searchParams_append url "audience" tokenAudience in
  data <- request (URL_toString url) {| json := false; headers := GCP_HEADERS |} ;;
  ret {| access_token := data; expires_in := None |}.

(** Get the token from the environment. *)
Definition getToken (credentials : option MongoCredentials) : M AccessToken :=
  let tokenAudience :=
    credentials ≫= (fun c => TOKEN_AUDIENCE (mechanismProperties c)) in
  if not_str tokenAudience
  then throw (MongoGCPError TOKEN_AUDIENCE_MISSING_ERROR)
  else getGcpTokenData (default "" tokenAudience).

End Request.

End Gcp.


From stdpp Require Import pretty.

(** ** mongodb_oidc.ts: the auth provider *)

(** Error when credentials are missing. *)
Definition MISSING_CREDENTIALS_ERROR : string :=
  "AuthContext must provide credentials.".

(** [AuthContext] of [auth_provider.ts], the fields read by the provider.
    An absent [response] is [JUndefined]. *)
Module AuthContext.
Record t : Type := {
  connection : Connection;
  credentials : option MongoCredentials;
  reauthenticating : bool;
  response : value
}.
End AuthContext.

(** Get credentials from the auth context, throwing if they do not exist. *)
Definition getCredentials (authContext : AuthContext.t) : Result MongoCredentials :=
  match AuthContext.credentials authContext with
  | None => Err (MongoMissingCredentialsError MISSING_CREDENTIALS_ERROR)
  | Some credentials => Ok credentials
  end.

(** The characters of a string as indexed properties, from index [i]. *)
Fixpoint indexed_characters (i : nat) (s : string) : list (string * value) :=
  match s with
  | EmptyString => []
  | String c rest =>
      (pretty i, JStr (String c EmptyString)) :: indexed_characters (S i) rest
  end.

(** The own enumerable properties copied by a spread [...v]: those of an
    object (every modelled property is enumerable), the characters of a
    string, nothing for the other values. *)
Definition spread_properties (v : value) : gmap string value :=
  match v with
  | JObj own _ => own
  | JStr s => list_to_map (indexed_characters 0 s)
  | _ => ∅
  end.

(** [{ ...a, ...b }]: the properties of [b] win. *)
Definition spread2 (a b : value) : value :=
  literal (spread_properties b ∪ spread_properties a).

Section MongoDBOIDC.

Variable ns : string -> MongoDBNamespace.
Variable startCommandDocument : MongoCredentials -> gmap string value.
Variable finishCommandDocument : value -> value -> value.
Variable BSON_deserialize : value -> Result value.

(** The three methods of the machine workflows, inherited from
    [MachineWorkflow] of [machine_workflow.ts]. *)
Variable machine_execute :
  Workflow -> Connection -> MongoCredentials -> value -> M value.
Variable machine_reauthenticate :
  Workflow -> Connection -> MongoCredentials -> M value.
Variable machine_speculativeAuth : Workflow -> MongoCredentials -> M value.

(** [workflow.execute(connection, credentials, this.cache, response)] *)
Definition workflow_execute (workflow : Workflow) (connection : Connection)
    (credentials : MongoCredentials) (response : value) : M value :=
  match workflow with
  | CallbackWorkflow =>
      execute ns startCommandDocument finishCommandDocument BSON_deserialize
        connection credentials response
  | _ => machine_execute workflow connection credentials response
  end.

(** [workflow.reauthenticate(connection, credentials, this.cache)] *)
Definition workflow_reauthenticate (workflow : Workflow)
    (connection : Connection) (credentials : MongoCredentials) : M value :=
  match workflow with
  | CallbackWorkflow =>
      reauthenticate ns startCommandDocument finishCommandDocument BSON_deserialize
        connection credentials
  | _ => machine_reauthenticate workflow connection credentials
  end.

(** [workflow.speculativeAuth(credentials)] *)
Definition workflow_speculativeAuth (workflow : Workflow)
    (credentials : MongoCredentials) : M value :=
  match workflow with
  | CallbackWorkflow => speculativeAuth startCommandDocument credentials
  | _ => machine_speculativeAuth workflow credentials
  end.

(** Authenticate using OIDC. The cache of the world is [this.cache]. *)
Definition auth (authContext : AuthContext.t) : M unit :=
  let connection := AuthContext.connection authContext in
  let reauthenticating := AuthContext.reauthenticating authContext in
  let response := AuthContext.response authContext in
  credentials <- lift (getCredentials authContext) ;;
  workflow <- lift (getWorkflow credentials) ;;
  if reauthenticating
  then
    workflow_reauthenticate workflow connection credentials ;;;
    ret tt
  else
    workflow_execute workflow connection credentials response ;;;
    ret tt.

(** Add the speculative auth for the initial handshake. *)
Definition prepare (handshakeDoc : value) (authContext : AuthContext.t) : M value :=
  credentials <- lift (getCredentials authContext) ;;
  workflow <- lift (getWorkflow credentials) ;;
  result <- workflow_speculativeAuth workflow credentials ;;
  ret (spread2 handshakeDoc result).

End MongoDBOIDC.

(** ** cmap/wire_protocol/responses.ts *)

Module Responses.

(** The two arguments given to [new Long] by the constructor of
    [CursorResponse], for the cursor id [id] (a bigint):
    [Number(id & 0xffff_ffffn)] and [Number((id >> 32n) & 0xffff_ffffn)]. *)
Definition long_low (id : Z) : Z := Z.land id 0xffffffff%Z.
Definition long_high (id : Z) : Z := Z.land (Z.shiftr id 32) 0xffffffff%Z.

End Responses.
(** * Vocabulary of the statements *)

(** The calls made between two worlds of one run. *)
Definition events_since (w w' : World) : list Event :=
  drop (length (trace w)) (trace w').

Definition is_callback (ev : Event) : bool :=
  match ev with
  | EvCallback _ => true
  | _ => false
  end.

Definition is_fetch (ev : Event) : bool :=
  match ev with
  | EvReadFile _ _ | EvRequest _ _ => true
  | _ => false
  end.

(** The number of user callback invocations among some calls. *)
Definition callback_invocations (events : list Event) : nat :=
  length (List.filter is_callback events).

(** The number of machine-token fetches (file reads, HTTP requests). *)
Definition token_fetches (events : list Event) : nat :=
  length (List.filter is_fetch events).

(** [hasToken] of the optional cache of a world. *)
Definition holds_token (w : World) : bool :=
  from_option TokenCache.hasToken false (cache w).


(** The steps of [execute] that come before the token: the selection of
    the callback, the conversation start, and the decoding of the
    conversation id and of the identity provider information. *)
Definition startConversation
    (ns : string -> MongoDBNamespace)
    (startCommandDocument : MongoCredentials -> gmap string value)
    (BSON_deserialize : value -> Result value)
    (connection : Connection) (credentials : MongoCredentials)
    (response : value) : M (OIDCCallbackInfo * value * value) :=
  callbackInfo <- lift (getCallback (mechanismProperties credentials)) ;;
  startDocument <-
    startAuthentication ns startCommandDocument connection credentials response ;;
  conversationId <- lift (get_property startDocument "conversationId") ;;
  payload <- lift (get_property startDocument "payload") ;;
  buffer <- lift (get_property payload "buffer") ;;
  idpInfo <- lift (BSON_deserialize buffer) ;;
  ret (callbackInfo, conversationId, idpInfo).

(** The world in which a removed cache replaces the cache of [w]. *)
Definition removed (w : World) : World :=
  with_cache (TokenCache.remove <$> cache w) w.

(** The world in which the cache of [w], if any, holds [result]. *)
Definition stored (result : value) (w : World) : World :=
  with_cache ((fun c => TokenCache.put c result) <$> cache w) w.

(** What the specification calls an invalid callback result: absent or
    null, not a structured value, without an [accessToken] field, or
    with a field outside the allowed ones. *)
Definition rejected_by_spec (result : value) : Prop :=
  nullish result = true ∨
  typeof result ≠ "object" ∨
  has_property result "accessToken" = false ∨
  ∃ field, field ∈ getOwnPropertyNames result ∧ field ∉ RESULT_PROPERTIES.
(** * Sample data *)

(** A machine callback answering a bare access token, for the examples. *)
Definition sample_callback (token : string) : OIDCCallbackFunction :=
  fun _ _ => Ok (literal {[ "accessToken" := JStr token ]}).

Definition sample_properties : AuthMechanismProperties :=
  {| ENVIRONMENT := None;
     OIDC_CALLBACK := Some (sample_callback "tok1");
     OIDC_HUMAN_CALLBACK := Some (sample_callback "human");
     TOKEN_AUDIENCE := None |}.

Definition sample_credentials (environment : option string) : MongoCredentials :=
  {| username := "bob";
     source := "$external";
     mechanismProperties :=
       {| ENVIRONMENT := environment;
          OIDC_CALLBACK := Some (sample_callback "tok1");
          OIDC_HUMAN_CALLBACK := Some (sample_callback "human");
          TOKEN_AUDIENCE := None |} |}.


Definition sample_ns (name : string) : MongoDBNamespace :=
  {| db := name; collection := None |}.

Definition sample_startCommandDocument (credentials : MongoCredentials)
    : gmap string value :=
  {[ "saslStart" := JNum 1;
     "mechanism" := JStr "MONGODB-OIDC";
     "user" := JStr (username credentials) ]}.

Definition sample_finishCommandDocument (token conversationId : value) : value :=
  literal {[ "saslContinue" := JNum 1;
             "conversationId" := conversationId;
             "jwt" := token ]}.

(** In the examples the payload buffer holds the decoded document. *)
Definition sample_deserialize (buffer : value) : Result value := Ok buffer.

Definition sample_idpInfo : value :=
  literal {[ "issuer" := JStr "https://idp.example"; "clientId" := JStr "abc" ]}.

Definition sample_startDocument : value :=
  literal {[ "conversationId" := JNum 7;
             "payload" := literal {[ "buffer" := sample_idpInfo ]} ]}.

(** A server that starts conversation 7 and accepts every token. *)
Definition accepting_connection : Connection :=
  {| command := fun _ _ cmd =>
       if has_property cmd "saslStart"
       then Ok sample_startDocument
       else Ok (literal {[ "ok" := JNum 1 ]}) |}.

(** A server that starts conversation 7 and rejects every token. *)
Definition rejecting_connection : Connection :=
  {| command := fun _ _ cmd =>
       if has_property cmd "saslStart"
       then Ok sample_startDocument
       else Err (Rejected (JStr "Authentication failed.")) |}.

Definition sample_world (c : option TokenCache.t) : World :=
  {| cache := c; env := ∅; files := ∅; trace := [] |}.

(** Credentials whose machine callback answers [result]. *)
Definition credentials_answering (result : value) : MongoCredentials :=
  {| username := "bob";
     source := "$external";
     mechanismProperties :=
       {| ENVIRONMENT := None;
          OIDC_CALLBACK := Some (fun _ _ => Ok result);
          OIDC_HUMAN_CALLBACK := Some (sample_callback "human");
          TOKEN_AUDIENCE := None |} |}.

(** Credentials for the GCP workflow. *)
Definition gcp_credentials (audience : option string) : MongoCredentials :=
  {| username := "";
     source := "$external";
     mechanismProperties :=
       {| ENVIRONMENT := Some "gcp";
          OIDC_CALLBACK := None;
          OIDC_HUMAN_CALLBACK := None;
          TOKEN_AUDIENCE := audience |} |}.

(** A serialisation of addresses for the examples, without escaping. *)
Definition sample_URL_toString (url : URL) : string :=
  address url +:+ "?" +:+
  String.concat "&" ((fun p => p.1 +:+ "=" +:+ p.2) <$> searchParams url).

(** A metadata server answering one fixed token. *)
Definition sample_http_get (w : World) (uri : string) (options : RequestOptions)
    : Result string :=
  Ok "gcp-token".

(** A process with the token file variable set and the file present. *)
Definition aws_world (contents : string) : World :=
  {| cache := None;
     env := {[ "AWS_WEB_IDENTITY_TOKEN_FILE" := "/var/run/token" ]};
     files := {[ "/var/run/token" := contents ]};
     trace := [] |}.

(** A world whose cache holds a token. *)
Definition cached_world : World :=
  sample_world (Some {| TokenCache.tokenResult :=
                          literal {[ "accessToken" := JStr "cached" ]} |}).

(** Credentials whose machine callback rejects. *)
Definition rejecting_credentials : MongoCredentials :=
  {| username := "bob";
     source := "$external";
     mechanismProperties :=
       {| ENVIRONMENT := None;
          OIDC_CALLBACK := Some (fun _ _ => Err (Rejected (JStr "user cancelled")));
          OIDC_HUMAN_CALLBACK := Some (sample_callback "human");
          TOKEN_AUDIENCE := None |} |}.

(** A server whose answers carry a conversation id and nothing else. *)
Definition bare_connection : Connection :=
  {| command := fun _ _ _ => Ok (literal {[ "conversationId" := JNum 7 ]}) |}.

(** Machine workflows that do nothing, for the examples of the provider. *)
Definition idle_execute (workflow : Workflow) (connection : Connection)
    (credentials : MongoCredentials) (response : value) : M value :=
  ret JUndefined.

Definition idle_reauthenticate (workflow : Workflow) (connection : Connection)
    (credentials : MongoCredentials) : M value :=
  ret JUndefined.

Definition idle_speculativeAuth (workflow : Workflow)
    (credentials : MongoCredentials) : M value :=
  ret (literal ∅).

Definition sample_context (credentials : option MongoCredentials)
    (reauthenticating : bool) (response : value) : AuthContext.t :=
  {| AuthContext.connection := accepting_connection;
     AuthContext.credentials := credentials;
     AuthContext.reauthenticating := reauthenticating;
     AuthContext.response := response |}.

(** A handshake document that already carries a speculative document. *)
Definition sample_handshake : value :=
  literal {[ "hello" := JNum 1;
             "speculativeAuthenticate" := JStr "stale" ]}.

(** A process with the token file variable set and no such file. *)
Definition aws_world_without_file : World :=
  {| cache := None;
     env := {[ "AWS_WEB_IDENTITY_TOKEN_FILE" := "/var/run/token" ]};
     files := ∅;
     trace := [] |}.

(** Credentials for the callback workflow with no callback configured. *)
Definition credentials_without_callbacks : MongoCredentials :=
  {| username := "bob";
     source := "$external";
     mechanismProperties :=
       {| ENVIRONMENT := None;
          OIDC_CALLBACK := None;
          OIDC_HUMAN_CALLBACK := None;
          TOKEN_AUDIENCE := None |} |}.
(** * Properties *)

(** ** Callback selection *)

Lemma getCallback_fails_iff (mp : AuthMechanismProperties) :
  getCallback mp = Err (MongoMissingCredentialsError NO_CALLBACK)
  ↔ OIDC_CALLBACK mp = None ∨ OIDC_HUMAN_CALLBACK mp = None.
Proof.
  unfold getCallback.
  destruct (OIDC_CALLBACK mp), (OIDC_HUMAN_CALLBACK mp); simpl;
    split; intros H; try done; try (by left); try (by right);
    by destruct H.
Qed.

Lemma getCallback_ok_inv (mp : AuthMechanismProperties) (info : OIDCCallbackInfo) :
  getCallback mp = Ok info →
  ∃ machine human,
    OIDC_CALLBACK mp = Some machine ∧ OIDC_HUMAN_CALLBACK mp = Some human ∧
    info = {| callback := Some machine; isHumanWorkflow := false |}.
Proof.
  unfold getCallback.
  destruct (OIDC_CALLBACK mp) as [machine|], (OIDC_HUMAN_CALLBACK mp) as [human|];
    simpl; intros H; try discriminate.
  injection H as <-. by exists machine, human.
Qed.

(** C1. With the machine callback configured and no human callback,
    [getCallback] does not select the machine callback: it throws the
    missing-credentials error meant for the case where neither is
    configured. *)
Theorem getCallback_machine_only_throws
    (environment audience : option string) (machine : OIDCCallbackFunction) :
  getCallback {| ENVIRONMENT := environment;
                 OIDC_CALLBACK := Some machine;
                 OIDC_HUMAN_CALLBACK := None;
                 TOKEN_AUDIENCE := audience |}
  = Err (MongoMissingCredentialsError NO_CALLBACK).
Proof. reflexivity. Qed.

(** With the human callback alone the outcome is the same. *)
Lemma getCallback_human_only_throws
    (environment audience : option string) (human : OIDCCallbackFunction) :
  getCallback {| ENVIRONMENT := environment;
                 OIDC_CALLBACK := None;
                 OIDC_HUMAN_CALLBACK := Some human;
                 TOKEN_AUDIENCE := audience |}
  = Err (MongoMissingCredentialsError NO_CALLBACK).
Proof. reflexivity. Qed.

(** C9. Whenever [getCallback] returns, it returns the machine callback
    with [isHumanWorkflow = false]; no result carries
    [isHumanWorkflow = true], and the function the workflow then calls is
    the one configured as [OIDC_CALLBACK]. *)
Theorem getCallback_returns_machine
    (mp : AuthMechanismProperties) (info : OIDCCallbackInfo) :
  getCallback mp = Ok info →
  isHumanWorkflow info = false ∧
  ∃ machine,
    OIDC_CALLBACK mp = Some machine ∧
    callback info = Some machine ∧
    ∀ params, call_callbackInfo info params = call_callback machine params.
Proof.
  intros (machine & human & Hm & Hh & ->)%getCallback_ok_inv.
  split; [done|]. exists machine. by repeat split.
Qed.

Lemma getCallback_returns_machine_witness :
  isHumanWorkflow {| callback := Some (sample_callback "tok1");
                     isHumanWorkflow := false |} = false ∧
  ∃ machine,
    OIDC_CALLBACK sample_properties = Some machine ∧
    Some (sample_callback "tok1") = Some machine ∧
    ∀ params,
      call_callbackInfo {| callback := Some (sample_callback "tok1");
                           isHumanWorkflow := false |} params
      = call_callback machine params.
Proof.
  apply (getCallback_returns_machine sample_properties
           {| callback := Some (sample_callback "tok1");
              isHumanWorkflow := false |}).
  reflexivity.
Defined.

(** ** Workflow dispatch *)

Lemma or_else_nonempty (v fallback : string) :
  v ≠ "" → or_else (Some v) fallback = v.
Proof. intros Hv. unfold or_else; simpl. by rewrite bool_decide_eq_false_2. Qed.

Lemma OIDC_WORKFLOWS_unknown (v : string) :
  v ∉ ["callback"; "aws"; "azure"; "gcp"] → OIDC_WORKFLOWS !! v = None.
Proof.
  intros Hv. unfold OIDC_WORKFLOWS.
  rewrite !lookup_insert_ne, lookup_empty; [done|..];
    intros <-; apply Hv; set_solver.
Qed.

(** C2. Dispatch is a function of [ENVIRONMENT] alone: unset (or empty)
    gives the callback workflow, each of the four registered names gives
    its workflow, and any other non-empty value fails with an
    invalid-argument error whose message ends with that value. *)
Theorem getWorkflow_dispatch (credentials : MongoCredentials) :
  (∀ other : MongoCredentials,
     ENVIRONMENT (mechanismProperties other)
       = ENVIRONMENT (mechanismProperties credentials) →
     getWorkflow other = getWorkflow credentials) ∧
  (ENVIRONMENT (mechanismProperties credentials) = None ∨
   ENVIRONMENT (mechanismProperties credentials) = Some "" →
     getWorkflow credentials = Ok CallbackWorkflow) ∧
  (ENVIRONMENT (mechanismProperties credentials) = Some "callback" →
     getWorkflow credentials = Ok CallbackWorkflow) ∧
  (ENVIRONMENT (mechanismProperties credentials) = Some "aws" →
     getWorkflow credentials = Ok AwsMachineWorkflow) ∧
  (ENVIRONMENT (mechanismProperties credentials) = Some "azure" →
     getWorkflow credentials = Ok AzureMachineWorkflow) ∧
  (ENVIRONMENT (mechanismProperties credentials) = Some "gcp" →
     getWorkflow credentials = Ok GCPMachineWorkflow) ∧
  (∀ v : string,
     ENVIRONMENT (mechanismProperties credentials) = Some v →
     v ≠ "" →
     v ∉ ["callback"; "aws"; "azure"; "gcp"] →
     getWorkflow credentials
     = Err (MongoInvalidArgumentError
              ("Could not load workflow for provider " +:+ v))).
Proof.
  unfold getWorkflow. repeat split.
  - by intros other ->.
  - by intros [-> | ->].
  - by intros ->.
  - by intros ->.
  - by intros ->.
  - by intros ->.
  - intros v -> Hne Hv.
    by rewrite or_else_nonempty, OIDC_WORKFLOWS_unknown.
Qed.

Lemma getWorkflow_dispatch_witness :
  getWorkflow (sample_credentials None) = Ok CallbackWorkflow ∧
  getWorkflow (sample_credentials (Some "callback")) = Ok CallbackWorkflow ∧
  getWorkflow (sample_credentials (Some "aws")) = Ok AwsMachineWorkflow ∧
  getWorkflow (sample_credentials (Some "azure")) = Ok AzureMachineWorkflow ∧
  getWorkflow (sample_credentials (Some "gcp")) = Ok GCPMachineWorkflow ∧
  getWorkflow (sample_credentials (Some "okta"))
  = Err (MongoInvalidArgumentError "Could not load workflow for provider okta").
Proof.
  destruct (getWorkflow_dispatch (sample_credentials None)) as (_ & H0 & _).
  destruct (getWorkflow_dispatch (sample_credentials (Some "callback")))
    as (_ & _ & H1 & _).
  destruct (getWorkflow_dispatch (sample_credentials (Some "aws")))
    as (_ & _ & _ & H2 & _).
  destruct (getWorkflow_dispatch (sample_credentials (Some "azure")))
    as (_ & _ & _ & _ & H3 & _).
  destruct (getWorkflow_dispatch (sample_credentials (Some "gcp")))
    as (_ & _ & _ & _ & _ & H4 & _).
  destruct (getWorkflow_dispatch (sample_credentials (Some "okta")))
    as (_ & _ & _ & _ & _ & _ & H5).
  refine (conj (H0 (or_introl eq_refl)) (conj (H1 eq_refl) (conj (H2 eq_refl)
            (conj (H3 eq_refl) (conj (H4 eq_refl) (H5 "okta" eq_refl _ _)))))).
  - discriminate.
  - intros H. by repeat (apply elem_of_cons in H as [H|H]; [discriminate|]);
      apply elem_of_nil in H.
Defined.

(** ** The callback workflow *)

Lemma events_since_app (w w' : World) (events : list Event) :
  trace w' = trace w ++ events → events_since w w' = events.
Proof. intros H. unfold events_since. by rewrite H, drop_app_length. Qed.

Lemma cache_remove_empty (w : World) :
  holds_token (cache_remove w).2 = false.
Proof. unfold holds_token, cache_remove; simpl. by destruct (cache w). Qed.

Lemma valid_result_is_object (r : value) :
  isCallbackResultInvalid r = false → ∃ own proto, r = JObj own proto.
Proof. destruct r; try discriminate. eauto. Qed.

Lemma valid_result_truthy (r : value) :
  isCallbackResultInvalid r = false → truthy r = true.
Proof. by intros (own & proto & ->)%valid_result_is_object. Qed.

Lemma forallb_false_exists {A} (f : A → bool) (l : list A) :
  forallb f l = false ↔ ∃ x, x ∈ l ∧ f x = false.
Proof.
  induction l as [|a l IH]; simpl.
  - split; [done|]. intros (x & H & _). by apply elem_of_nil in H.
  - rewrite andb_false_iff, IH. split.
    + intros [H|(x & ? & ?)].
      * exists a. split; [by left | done].
      * exists x. split; [by right | done].
    + intros (x & [->|H]%elem_of_cons & Hf); [by left | right; eauto].
Qed.

Lemma isCallbackResultInvalid_spec (result : value) :
  isCallbackResultInvalid result = true ↔ rejected_by_spec result.
Proof.
  unfold isCallbackResultInvalid, rejected_by_spec.
  destruct (nullish result) eqn:Hn; simpl.
  { split; [by left | done]. }
  case_bool_decide as Ht; simpl.
  2:{ split; [by right; left | done]. }
  destruct (has_property result "accessToken") eqn:Ha; simpl.
  2:{ split; [by right; right; left | done]. }
  rewrite negb_true_iff, forallb_false_exists. split.
  - intros (field & Hin & Hnot). right; right; right.
    exists field. split; [done|].
    unfold includes in Hnot. by apply bool_decide_eq_false_1 in Hnot.
  - intros [?|[?|[?|(field & Hin & Hnot)]]]; [done..|].
    exists field. split; [done|]. by apply bool_decide_eq_false_2.
Qed.

Example validation_rejects_extra_field :
  isCallbackResultInvalid
    (literal {[ "accessToken" := JStr "t"; "extra" := JNum 1 ]}) = true.
Proof. vm_compute. reflexivity. Qed.

Example validation_accepts_all_fields :
  isCallbackResultInvalid
    (literal {[ "accessToken" := JStr "t"; "expiresInSeconds" := JNum 300;
                "refreshToken" := JStr "r" ]}) = false.
Proof. vm_compute. reflexivity. Qed.

Example validation_rejects_function :
  isCallbackResultInvalid (JFun "token") = true.
Proof. reflexivity. Qed.

(** [in] follows the prototype chain, [getOwnPropertyNames] does not. *)
Example validation_accepts_inherited_token :
  isCallbackResultInvalid
    (JObj ∅ (literal {[ "accessToken" := JStr "t" ]})) = false.
Proof. vm_compute. reflexivity. Qed.

Section CallbackWorkflowProperties.

Variable ns : string -> MongoDBNamespace.
Variable startCommandDocument : MongoCredentials -> gmap string value.
Variable finishCommandDocument : value -> value -> value.
Variable BSON_deserialize : value -> Result value.

#[local] Notation "'start_command' credentials" :=
  (EvCommand (ns (source credentials)) (literal (startCommandDocument credentials)))
  (at level 10, credentials at level 9, only parsing).
#[local] Abbreviation startAuthentication' :=
  (startAuthentication ns startCommandDocument).
#[local] Abbreviation finishAuthentication' :=
  (finishAuthentication ns finishCommandDocument).
#[local] Abbreviation execute' :=
  (execute ns startCommandDocument finishCommandDocument BSON_deserialize).
#[local] Abbreviation reauthenticate' :=
  (reauthenticate ns startCommandDocument finishCommandDocument BSON_deserialize).
#[local] Abbreviation startConversation' :=
  (startConversation ns startCommandDocument BSON_deserialize).

Lemma startAuthentication_world connection credentials response w r w1 :
  startAuthentication' connection credentials response w = (r, w1) →
  w1 = w ∨ w1 = emit (start_command credentials) w.
Proof.
  unfold startAuthentication, bind, lift, ret, connection_command.
  destruct (truthy _).
  - destruct (get_property _ _); intros [= <- <-]; by left.
  - destruct (command _ _ _ _); intros [= <- <-]; by right.
Qed.

Lemma startConversation_world connection credentials response w r w1 :
  startConversation' connection credentials response w = (r, w1) →
  w1 = w ∨ w1 = emit (start_command credentials) w.
Proof.
  unfold startConversation, bind, lift, ret.
  destruct (getCallback _); [|intros [= <- <-]; by left].
  destruct (startAuthentication' _ _ _ _) as [[sd|e] w2] eqn:Hs;
    apply startAuthentication_world in Hs.
  - destruct (get_property sd "conversationId"); [|by intros [= <- <-]].
    destruct (get_property sd "payload") as [p|]; [|by intros [= <- <-]].
    destruct (get_property p "buffer") as [b|]; [|by intros [= <- <-]].
    destruct (BSON_deserialize b); by intros [= <- <-].
  - by intros [= <- <-].
Qed.

Lemma startConversation_cache connection credentials response w r w1 :
  startConversation' connection credentials response w = (r, w1) →
  cache w1 = cache w ∧ ∃ events, trace w1 = trace w ++ events ∧
    callback_invocations events = 0 ∧ token_fetches events = 0.
Proof.
  intros [->| ->]%startConversation_world.
  - split; [done|]. exists []. by rewrite app_nil_r.
  - split; [done|]. by exists [start_command credentials].
Qed.

Lemma execute_start_fails connection credentials response w e w1 :
  startConversation' connection credentials response w = (Err e, w1) →
  execute' connection credentials response w = (Err e, w1).
Proof.
  unfold startConversation, execute, bind, lift, ret.
  repeat case_match; naive_solver.
Qed.

Lemma execute_after_start connection credentials response w info cid idp w1 :
  startConversation' connection credentials response w = (Ok (info, cid, idp), w1) →
  execute' connection credentials response w =
    (tokenResult <-
       (has <- cache_hasToken ;;
        if has
        then cache_get
        else
          tokenResult <- fetchAccessToken connection credentials idp info ;;
          cache_put tokenResult ;;;
          ret tokenResult) ;;
     result <- finishAuthentication' connection credentials tokenResult cid ;;
     ret result) w1.
Proof.
  unfold startConversation, execute, lift, ret. unfold bind at 1 2 3 4 5 6.
  intros H. unfold bind at 1 2 3 4 5 6.
  repeat case_match; simplify_eq; done.
Qed.

Lemma finishAuthentication_object connection credentials own proto cid w :
  finishAuthentication' connection credentials (JObj own proto) cid w =
    let finish :=
      finishCommandDocument (lookup_chain (JObj own proto) "accessToken") cid in
    (command connection w (ns (source credentials)) finish,
     emit (EvCommand (ns (source credentials)) finish) w).
Proof.
  unfold finishAuthentication, bind, lift, ret, connection_command; simpl.
  by destruct (command _ _ _ _).
Qed.

Lemma finishAuthentication_world connection credentials tokenResult cid w r w' :
  finishAuthentication' connection credentials tokenResult cid w = (r, w') →
  cache w' = cache w ∧ ∃ events, trace w' = trace w ++ events ∧
    callback_invocations events = 0 ∧ token_fetches events = 0.
Proof.
  unfold finishAuthentication, bind, lift, ret, connection_command.
  destruct (get_property _ _) as [accessToken|].
  - destruct (command _ _ _ _); intros [= <- <-]; (split; [done|]);
      by eexists [_].
  - intros [= <- <-]. split; [done|]. exists []. by rewrite app_nil_r.
Qed.

Lemma execute_hit connection credentials response w info cid idp w1 c :
  startConversation' connection credentials response w = (Ok (info, cid, idp), w1) →
  cache w = Some c →
  TokenCache.hasToken c = true →
  execute' connection credentials response w
  = finishAuthentication' connection credentials (TokenCache.tokenResult c) cid w1.
Proof.
  intros Hs Hc Ht. rewrite (execute_after_start _ _ _ _ _ _ _ _ Hs).
  apply startConversation_cache in Hs as [Hc1 _]. rewrite Hc in Hc1.
  unfold bind at 1 2. unfold cache_hasToken, cache_get. rewrite Hc1; simpl.
  rewrite Ht, Hc1. unfold TokenCache.get. unfold TokenCache.hasToken in Ht.
  rewrite Ht; simpl. unfold bind, ret. by repeat case_match.
Qed.

Lemma execute_miss connection credentials response w info cid idp w1 :
  startConversation' connection credentials response w = (Ok (info, cid, idp), w1) →
  holds_token w = false →
  execute' connection credentials response w =
    (tokenResult <- fetchAccessToken connection credentials idp info ;;
     cache_put tokenResult ;;;
     finishAuthentication' connection credentials tokenResult cid) w1.
Proof.
  intros Hs Hc. rewrite (execute_after_start _ _ _ _ _ _ _ _ Hs).
  apply startConversation_cache in Hs as [Hc1 _].
  unfold holds_token in Hc. rewrite <- Hc1 in Hc.
  unfold bind at 1 2. unfold cache_hasToken. rewrite Hc.
  unfold bind, ret, cache_put. repeat case_match; simplify_eq; done.
Qed.

Lemma fetchAccessToken_calls connection credentials idp info machine w :
  callback info = Some machine →
  fetchAccessToken connection credentials idp info w =
    (match machine w (callback_params idp info) with
     | Ok result =>
         if isCallbackResultInvalid result
         then Err (MongoMissingCredentialsError CALLBACK_RESULT_ERROR)
         else Ok result
     | Err e => Err e
     end,
     emit (EvCallback (callback_params idp info)) w).
Proof.
  intros Hcb. unfold fetchAccessToken, call_callbackInfo, bind, call_callback.
  rewrite Hcb. destruct (machine _ _) as [result|]; [|done].
  by destruct (isCallbackResultInvalid result).
Qed.

(** C6. [speculativeAuth] returns, in the world it was called in (no
    command is sent, nothing is thrown), the document
    [{ speculativeAuthenticate: d }] where [d] is the start command of
    the credentials with its [db] property set to [credentials.source]. *)
Theorem speculativeAuth_document (credentials : MongoCredentials) (w : World) :
  speculativeAuth startCommandDocument credentials w =
    (Ok (literal
           {[ "speculativeAuthenticate" :=
                literal (<["db" := JStr (source credentials)]>
                           (startCommandDocument credentials)) ]}),
     w) ∧
  get_property
    (literal (<["db" := JStr (source credentials)]>
                (startCommandDocument credentials))) "db"
  = Ok (JStr (source credentials)).
Proof.
  split; [reflexivity|].
  unfold get_property, literal; simpl. by rewrite lookup_insert_eq.
Qed.

Lemma execute_hit_run
    (connection : Connection) (credentials : MongoCredentials)
    (response : value) (w : World) (c : TokenCache.t) :
  cache w = Some c →
  TokenCache.hasToken c = true →
  (∃ events,
     trace (execute' connection credentials response w).2 = trace w ++ events ∧
     callback_invocations events = 0 ∧ token_fetches events = 0) ∧
  cache (execute' connection credentials response w).2 = cache w ∧
  (∀ info cid idp w1,
     startConversation' connection credentials response w
       = (Ok (info, cid, idp), w1) →
     execute' connection credentials response w
       = finishAuthentication' connection credentials
           (TokenCache.tokenResult c) cid w1).
Proof.
  intros Hc Ht.
  assert (∀ info cid idp w1,
     startConversation' connection credentials response w
       = (Ok (info, cid, idp), w1) →
     execute' connection credentials response w
       = finishAuthentication' connection credentials
           (TokenCache.tokenResult c) cid w1) as Hhit.
  { intros. by eapply execute_hit. }
  split_and!; [..|done];
    destruct (startConversation' connection credentials response w)
      as [[[[info cid] idp]|e] w1] eqn:Hs.
  - rewrite (Hhit _ _ _ _ eq_refl).
    apply startConversation_cache in Hs as (_ & ev1 & Ht1 & Hc1 & Hf1).
    destruct (finishAuthentication' _ _ _ _ _) as [r w'] eqn:Hfin.
    apply finishAuthentication_world in Hfin as (_ & ev2 & Ht2 & Hc2 & Hf2).
    exists (ev1 ++ ev2). simpl. rewrite Ht2, Ht1, <- app_assoc.
    split; [done|]. unfold callback_invocations, token_fetches in *.
    rewrite !List.filter_app, !length_app. lia.
  - rewrite (execute_start_fails _ _ _ _ _ _ Hs).
    apply startConversation_cache in Hs as (_ & ev1 & Ht1 & Hc1 & Hf1).
    by exists ev1.
  - rewrite (Hhit _ _ _ _ eq_refl).
    apply startConversation_cache in Hs as [Hc1 _].
    destruct (finishAuthentication' _ _ _ _ _) as [r w'] eqn:Hfin.
    apply finishAuthentication_world in Hfin as [Hc2 _].
    simpl. congruence.
  - rewrite (execute_start_fails _ _ _ _ _ _ Hs).
    by apply startConversation_cache in Hs as [Hc1 _].
Qed.

Lemma finishAuthentication_truthy connection credentials tokenResult cid w :
  truthy tokenResult = true →
  finishAuthentication' connection credentials tokenResult cid w =
    let finish :=
      finishCommandDocument (lookup_chain tokenResult "accessToken") cid in
    (command connection w (ns (source credentials)) finish,
     emit (EvCommand (ns (source credentials)) finish) w).
Proof.
  intros Ht.
  unfold finishAuthentication, bind, lift, ret, connection_command.
  destruct tokenResult; try done; simpl; by destruct (command _ _ _ _).
Qed.

(** C5. When [execute] is called with a cache that holds a token, the
    calls it makes contain no callback invocation and no machine-token
    fetch and the cache is left as it was. The callback is selected
    before the cache is read: with neither callback configured the call
    fails with the missing-credentials error and sends nothing. When
    the selection and the conversation start succeed, the one call made
    after the start is the finish command built from the cached access
    token and the conversation id, and its answer is the result. *)
Theorem execute_cached_token
    (connection : Connection) (credentials : MongoCredentials)
    (response : value) (w : World) (c : TokenCache.t) :
  cache w = Some c →
  TokenCache.hasToken c = true →
  (∃ events,
     trace (execute' connection credentials response w).2 = trace w ++ events ∧
     callback_invocations events = 0 ∧ token_fetches events = 0) ∧
  cache (execute' connection credentials response w).2 = cache w ∧
  (OIDC_CALLBACK (mechanismProperties credentials) = None →
   OIDC_HUMAN_CALLBACK (mechanismProperties credentials) = None →
   execute' connection credentials response w
     = (Err (MongoMissingCredentialsError NO_CALLBACK), w)) ∧
  (∀ info startDocument w1 cid payload buffer idp,
     getCallback (mechanismProperties credentials) = Ok info →
     startAuthentication' connection credentials response w
       = (Ok startDocument, w1) →
     get_property startDocument "conversationId" = Ok cid →
     get_property startDocument "payload" = Ok payload →
     get_property payload "buffer" = Ok buffer →
     BSON_deserialize buffer = Ok idp →
     let finish :=
       finishCommandDocument
         (lookup_chain (TokenCache.tokenResult c) "accessToken") cid in
     execute' connection credentials response w
       = (command connection w1 (ns (source credentials)) finish,
          emit (EvCommand (ns (source credentials)) finish) w1)).
Proof.
  intros Hc Ht.
  destruct (execute_hit_run connection credentials response w c Hc Ht)
    as (Hevents & Hcache & Hhit).
  split_and!; [done | done | |].
  - intros Hmachine Hhuman.
    unfold execute, getCallback, bind, lift. by rewrite Hmachine, Hhuman.
  - intros info startDocument w1 cid payload buffer idp
      Hinfo Hstart Hcid Hpayload Hbuffer Hidp finish.
    rewrite (Hhit info cid idp w1).
    + by apply finishAuthentication_truthy.
    + unfold startConversation, bind, lift, ret.
      by rewrite Hinfo, Hstart, Hcid, Hpayload, Hbuffer, Hidp.
Qed.

(** C4. A callback result that is null or absent, not an object, without
    an [accessToken] field, or with a field outside the allowed ones is
    invalid; when the callback answers such a result on a cache miss,
    [execute] fails with the invalid-callback-result error right after
    the callback, the cache is what it was and still holds no token. *)
Theorem invalid_callback_result_not_cached
    (connection : Connection) (credentials : MongoCredentials)
    (response : value) (w w1 : World) (info : OIDCCallbackInfo)
    (cid idp : value) (fn : OIDCCallbackFunction) (result : value) :
  rejected_by_spec result →
  holds_token w = false →
  startConversation' connection credentials response w
    = (Ok (info, cid, idp), w1) →
  callback info = Some fn →
  fn w1 (callback_params idp info) = Ok result →
  isCallbackResultInvalid result = true ∧
  fetchAccessToken connection credentials idp info w1
    = (Err (MongoMissingCredentialsError CALLBACK_RESULT_ERROR),
       emit (EvCallback (callback_params idp info)) w1) ∧
  execute' connection credentials response w
    = (Err (MongoMissingCredentialsError CALLBACK_RESULT_ERROR),
       emit (EvCallback (callback_params idp info)) w1) ∧
  cache (execute' connection credentials response w).2 = cache w ∧
  holds_token (execute' connection credentials response w).2 = false.
Proof.
  intros Hrej%isCallbackResultInvalid_spec Hempty Hs Hcb Hfn.
  assert (fetchAccessToken connection credentials idp info w1
    = (Err (MongoMissingCredentialsError CALLBACK_RESULT_ERROR),
       emit (EvCallback (callback_params idp info)) w1)) as Hfetch.
  { by rewrite (fetchAccessToken_calls _ _ _ _ _ _ Hcb), Hfn, Hrej. }
  assert (execute' connection credentials response w
    = (Err (MongoMissingCredentialsError CALLBACK_RESULT_ERROR),
       emit (EvCallback (callback_params idp info)) w1)) as Hexec.
  { rewrite (execute_miss _ _ _ _ _ _ _ _ Hs Hempty).
    unfold bind at 1. by rewrite Hfetch. }
  apply startConversation_cache in Hs as [Hc1 _].
  split_and!; [done..| |].
  - by rewrite Hexec.
  - rewrite Hexec. unfold holds_token in *; simpl. by rewrite Hc1.
Qed.

(** C10. On a cache miss with a cache, the validated token is in the
    cache in the world in which the finish command is sent; when that
    command fails, [execute] fails with the same error and the cache
    still holds the token fetched in this call. *)
Theorem token_cached_before_finish
    (connection : Connection) (credentials : MongoCredentials)
    (response : value) (w w1 : World) (c : TokenCache.t)
    (info : OIDCCallbackInfo) (cid idp : value)
    (fn : OIDCCallbackFunction) (result : value) :
  cache w = Some c →
  TokenCache.hasToken c = false →
  startConversation' connection credentials response w
    = (Ok (info, cid, idp), w1) →
  callback info = Some fn →
  fn w1 (callback_params idp info) = Ok result →
  isCallbackResultInvalid result = false →
  let w2 := stored result (emit (EvCallback (callback_params idp info)) w1) in
  let finish := finishCommandDocument (lookup_chain result "accessToken") cid in
  cache w2 = Some (TokenCache.put c result) ∧
  holds_token w2 = true ∧
  execute' connection credentials response w
    = (command connection w2 (ns (source credentials)) finish,
       emit (EvCommand (ns (source credentials)) finish) w2) ∧
  (∀ e, command connection w2 (ns (source credentials)) finish = Err e →
     execute' connection credentials response w
       = (Err e, emit (EvCommand (ns (source credentials)) finish) w2) ∧
     cache (execute' connection credentials response w).2
       = Some {| TokenCache.tokenResult := result |} ∧
     holds_token (execute' connection credentials response w).2 = true).
Proof.
  intros Hc Ht Hs Hcb Hfn Hvalid w2 finish.
  assert (holds_token w = false) as Hempty.
  { unfold holds_token. by rewrite Hc. }
  assert (cache w2 = Some (TokenCache.put c result)) as Hc2.
  { apply startConversation_cache in Hs as [Hc1 _].
    unfold w2, stored; simpl. by rewrite Hc1, Hc. }
  assert (holds_token w2 = true) as Hh2.
  { unfold holds_token. rewrite Hc2; simpl.
    by apply valid_result_truthy. }
  assert (execute' connection credentials response w
    = (command connection w2 (ns (source credentials)) finish,
       emit (EvCommand (ns (source credentials)) finish) w2)) as Hexec.
  { rewrite (execute_miss _ _ _ _ _ _ _ _ Hs Hempty).
    unfold bind at 1.
    rewrite (fetchAccessToken_calls _ _ _ _ _ _ Hcb), Hfn, Hvalid.
    unfold bind, cache_put. fold (stored result (emit (EvCallback (callback_params idp info)) w1)).
    destruct (valid_result_is_object _ Hvalid) as (own & proto & ->).
    by rewrite finishAuthentication_object. }
  split_and!; [done..|].
  intros e He. rewrite Hexec, He. split_and!; [done| exact Hc2 | exact Hh2].
Qed.

(** C3. [reauthenticate] is [execute] without a prior response, run on
    the cache emptied by [remove]: whatever the cache held, it holds no
    token when the conversation has started and the token is to be
    acquired, so the callback is called there; a reauthentication that
    succeeds has made exactly the start command, one callback
    invocation and the finish command. *)
Theorem reauthenticate_fetches_fresh_token
    (connection : Connection) (credentials : MongoCredentials) (w : World) :
  reauthenticate' connection credentials w
    = execute' connection credentials JUndefined (removed w) ∧
  holds_token (removed w) = false ∧
  (∀ info cid idp w1,
     startConversation' connection credentials JUndefined (removed w)
       = (Ok (info, cid, idp), w1) →
     holds_token w1 = false ∧
     reauthenticate' connection credentials w =
       (tokenResult <- fetchAccessToken connection credentials idp info ;;
        cache_put tokenResult ;;;
        finishAuthentication' connection credentials tokenResult cid) w1) ∧
  (∀ final w',
     reauthenticate' connection credentials w = (Ok final, w') →
     ∃ info cid idp tokenResult,
       events_since w w' =
         [start_command credentials;
          EvCallback (callback_params idp info);
          EvCommand (ns (source credentials))
            (finishCommandDocument (lookup_chain tokenResult "accessToken") cid)] ∧
       1 ≤ callback_invocations (events_since w w')).
Proof.
  assert (reauthenticate' connection credentials w
    = execute' connection credentials JUndefined (removed w)) as Hre.
  { reflexivity. }
  assert (holds_token (removed w) = false) as Hempty.
  { apply cache_remove_empty. }
  split_and!; [done..| |].
  - intros info cid idp w1 Hs. split.
    + pose proof Hs as [Hc1 _]%startConversation_cache.
      unfold holds_token in *. by rewrite Hc1.
    + rewrite Hre. by apply execute_miss.
  - intros final w' Hrun. rewrite Hre in Hrun.
    destruct (startConversation' connection credentials JUndefined (removed w))
      as [[[[info cid] idp]|e] w1] eqn:Hs.
    2:{ by rewrite (execute_start_fails _ _ _ _ _ _ Hs) in Hrun. }
    rewrite (execute_miss _ _ _ _ _ _ _ _ Hs Hempty) in Hrun.
    assert (w1 = emit (start_command credentials) (removed w)) as ->.
    { revert Hs. unfold startConversation, startAuthentication; simpl.
      unfold bind, lift, ret, connection_command.
      repeat case_match; naive_solver. }
    unfold bind at 1 in Hrun.
    destruct (callback info) as [fn|] eqn:Hcb.
    2:{ unfold fetchAccessToken, call_callbackInfo in Hrun.
        rewrite Hcb in Hrun. by unfold bind, throw in Hrun. }
    rewrite (fetchAccessToken_calls _ _ _ _ _ _ Hcb) in Hrun.
    destruct (fn _ _) as [tokenResult|]; [|done].
    destruct (isCallbackResultInvalid tokenResult) eqn:Hvalid; [done|].
    destruct (valid_result_is_object _ Hvalid) as (own & proto & ->).
    unfold bind, cache_put in Hrun.
    rewrite finishAuthentication_object in Hrun. simpl in Hrun.
    injection Hrun as Hfinal <-.
    exists info, cid, idp, (JObj own proto).
    erewrite events_since_app; [split; [reflexivity|]|].
    + unfold callback_invocations; simpl. lia.
    + simpl. by rewrite <- !app_assoc.
Qed.

End CallbackWorkflowProperties.

(** ** Witnesses for the callback workflow *)

Lemma execute_cached_token_witness :
  execute sample_ns sample_startCommandDocument sample_finishCommandDocument
    sample_deserialize accepting_connection (sample_credentials None) JUndefined
    cached_world
  = (Ok (literal {[ "ok" := JNum 1 ]}),
     emit (EvCommand (sample_ns "$external")
             (sample_finishCommandDocument (JStr "cached") (JNum 7)))
       (emit (EvCommand (sample_ns "$external")
                (literal (sample_startCommandDocument (sample_credentials None))))
          cached_world)).
Proof.
  destruct (execute_cached_token sample_ns sample_startCommandDocument
              sample_finishCommandDocument sample_deserialize
              accepting_connection (sample_credentials None) JUndefined
              cached_world
              {| TokenCache.tokenResult :=
                   literal {[ "accessToken" := JStr "cached" ]} |}
              eq_refl eq_refl) as (_ & _ & _ & Hfinish).
  etransitivity.
  - apply (Hfinish
             {| callback := Some (sample_callback "tok1"); isHumanWorkflow := false |}
             sample_startDocument
             (emit (EvCommand (sample_ns "$external")
                      (literal (sample_startCommandDocument
                                  (sample_credentials None))))
                cached_world)
             (JNum 7)
             (literal {[ "buffer" := sample_idpInfo ]})
             sample_idpInfo sample_idpInfo);
      vm_compute; reflexivity.
  - vm_compute. reflexivity.
Defined.

(** C5, the case of a cached token and no callback configured: the
    cache holds a token, yet [execute] throws before any command is
    sent; the cached token is not used and no finish command is made. *)
Lemma execute_cached_token_counterexample :
  holds_token cached_world = true ∧
  execute sample_ns sample_startCommandDocument sample_finishCommandDocument
    sample_deserialize accepting_connection credentials_without_callbacks
    JUndefined cached_world
  = (Err (MongoMissingCredentialsError NO_CALLBACK), cached_world) ∧
  ¬ (∃ namespace cmd,
       EvCommand namespace cmd ∈
         trace (execute sample_ns sample_startCommandDocument
                  sample_finishCommandDocument sample_deserialize
                  accepting_connection credentials_without_callbacks
                  JUndefined cached_world).2).
Proof.
  split_and!; [reflexivity..|].
  intros (namespace & cmd & H). simpl in H. by apply elem_of_nil in H.
Qed.

Lemma invalid_callback_result_not_cached_witness :
  holds_token
    (execute sample_ns sample_startCommandDocument sample_finishCommandDocument
       sample_deserialize accepting_connection
       (credentials_answering (literal {[ "accessToken" := JStr "t"; "extra" := JNum 1 ]}))
       JUndefined (sample_world (Some TokenCache.new))).2
  = false.
Proof.
  eapply (invalid_callback_result_not_cached sample_ns sample_startCommandDocument
           sample_finishCommandDocument sample_deserialize
           accepting_connection
           (credentials_answering (literal {[ "accessToken" := JStr "t"; "extra" := JNum 1 ]}))
           JUndefined (sample_world (Some TokenCache.new))
           (emit (EvCommand (sample_ns "$external")
                    (literal (sample_startCommandDocument
                                (credentials_answering
                                   (literal {[ "accessToken" := JStr "t";
                                               "extra" := JNum 1 ]})))))
              (sample_world (Some TokenCache.new)))
           {| callback := Some (fun _ _ =>
                Ok (literal {[ "accessToken" := JStr "t"; "extra" := JNum 1 ]}));
              isHumanWorkflow := false |}
           (JNum 7) sample_idpInfo
           (fun _ _ => Ok (literal {[ "accessToken" := JStr "t"; "extra" := JNum 1 ]}))
           (literal {[ "accessToken" := JStr "t"; "extra" := JNum 1 ]})).
  - right; right; right. exists "extra". split.
    + vm_compute. apply list_elem_of_In. vm_compute. tauto.
    + intros H. by repeat (apply elem_of_cons in H as [H|H]; [discriminate|]);
        apply elem_of_nil in H.
  - reflexivity.
  - reflexivity.
  - reflexivity.
  - reflexivity.
Defined.

Lemma token_cached_before_finish_witness :
  cache
    (execute sample_ns sample_startCommandDocument sample_finishCommandDocument
       sample_deserialize rejecting_connection
       (credentials_answering (literal {[ "accessToken" := JStr "tok1" ]}))
       JUndefined (sample_world (Some TokenCache.new))).2
  = Some {| TokenCache.tokenResult := literal {[ "accessToken" := JStr "tok1" ]} |}.
Proof.
  eapply (token_cached_before_finish sample_ns sample_startCommandDocument
            sample_finishCommandDocument sample_deserialize
            rejecting_connection
            (credentials_answering (literal {[ "accessToken" := JStr "tok1" ]}))
            JUndefined (sample_world (Some TokenCache.new))
            (emit (EvCommand (sample_ns "$external")
                     (literal (sample_startCommandDocument
                                 (credentials_answering
                                    (literal {[ "accessToken" := JStr "tok1" ]})))))
               (sample_world (Some TokenCache.new)))
            TokenCache.new
            {| callback := Some (fun _ _ =>
                 Ok (literal {[ "accessToken" := JStr "tok1" ]}));
               isHumanWorkflow := false |}
            (JNum 7) sample_idpInfo
            (fun _ _ => Ok (literal {[ "accessToken" := JStr "tok1" ]}))
            (literal {[ "accessToken" := JStr "tok1" ]})
            eq_refl eq_refl eq_refl eq_refl eq_refl).
  - vm_compute. reflexivity.
  - reflexivity.
Defined.

Lemma reauthenticate_fetches_fresh_token_witness :
  1 ≤ callback_invocations
        (events_since cached_world
           (reauthenticate sample_ns sample_startCommandDocument
              sample_finishCommandDocument sample_deserialize
              accepting_connection (sample_credentials None) cached_world).2).
Proof.
  destruct (reauthenticate_fetches_fresh_token sample_ns
              sample_startCommandDocument sample_finishCommandDocument
              sample_deserialize accepting_connection (sample_credentials None)
              cached_world) as (_ & _ & _ & Hsuccess).
  destruct (Hsuccess (literal {[ "ok" := JNum 1 ]})
              (reauthenticate sample_ns sample_startCommandDocument
                 sample_finishCommandDocument sample_deserialize
                 accepting_connection (sample_credentials None) cached_world).2
              eq_refl) as (_ & _ & _ & _ & _ & Hcount).
  exact Hcount.
Defined.

(** The scenario of the specification: conversation 7, a callback that
    answers [{ accessToken: "tok1" }]. *)
Example end_to_end :
  execute sample_ns sample_startCommandDocument sample_finishCommandDocument
    sample_deserialize accepting_connection
    (credentials_answering (literal {[ "accessToken" := JStr "tok1" ]}))
    JUndefined (sample_world (Some TokenCache.new))
  = (Ok (literal {[ "ok" := JNum 1 ]}),
     {| cache := Some {| TokenCache.tokenResult :=
                           literal {[ "accessToken" := JStr "tok1" ]} |};
        env := ∅; files := ∅;
        trace :=
          [EvCommand (sample_ns "$external")
             (literal {[ "saslStart" := JNum 1;
                         "mechanism" := JStr "MONGODB-OIDC";
                         "user" := JStr "bob" ]});
           EvCallback {| timeoutContext := 300000; version := 1;
                         idpInfo := sample_idpInfo; refreshToken := None |};
           EvCommand (sample_ns "$external")
             (literal {[ "saslContinue" := JNum 1;
                         "conversationId" := JNum 7;
                         "jwt" := JStr "tok1" ]})] |}).
Proof. vm_compute. reflexivity. Qed.

(** With the machine callback alone, as in C1, no command is even sent. *)
Example execute_machine_only :
  execute sample_ns sample_startCommandDocument sample_finishCommandDocument
    sample_deserialize accepting_connection
    {| username := "bob"; source := "$external";
       mechanismProperties :=
         {| ENVIRONMENT := None;
            OIDC_CALLBACK := Some (sample_callback "tok1");
            OIDC_HUMAN_CALLBACK := None;
            TOKEN_AUDIENCE := None |} |}
    JUndefined (sample_world (Some TokenCache.new))
  = (Err (MongoMissingCredentialsError NO_CALLBACK), sample_world (Some TokenCache.new)).
Proof. reflexivity. Qed.

(** ** Machine workflows *)

(** C8. With [AWS_WEB_IDENTITY_TOKEN_FILE] unset or empty, [getToken]
    fails with the AWS error and leaves the world untouched (no file is
    read); with the variable naming a file, the contents of that file,
    unchanged, are the [access_token] of the result. *)
Theorem aws_getToken_token_file (w : World) :
  (env w !! "AWS_WEB_IDENTITY_TOKEN_FILE" = None ∨
   env w !! "AWS_WEB_IDENTITY_TOKEN_FILE" = Some "" →
   Aws.getToken w = (Err (MongoAWSError Aws.TOKEN_MISSING_ERROR), w)) ∧
  (∀ path contents,
     env w !! "AWS_WEB_IDENTITY_TOKEN_FILE" = Some path →
     path ≠ "" →
     files w !! path = Some contents →
     Aws.getToken w
     = (Ok {| access_token := contents; expires_in := None |},
        emit (EvReadFile path "utf8") w)).
Proof.
  unfold Aws.getToken, Aws.process_env, Aws.readFile, bind, throw, ret. split.
  - by intros [-> | ->].
  - intros path contents -> Hpath Hfile; simpl.
    rewrite bool_decide_eq_false_2 by done; simpl. by rewrite Hfile.
Qed.

Lemma aws_getToken_token_file_witness :
  Aws.getToken (sample_world None)
    = (Err (MongoAWSError Aws.TOKEN_MISSING_ERROR), sample_world None) ∧
  Aws.getToken (aws_world "  eyJhbGciOi.token  ")
    = (Ok {| access_token := "  eyJhbGciOi.token  "; expires_in := None |},
       emit (EvReadFile "/var/run/token" "utf8")
         (aws_world "  eyJhbGciOi.token  ")).
Proof.
  destruct (aws_getToken_token_file (sample_world None)) as [Hunset _].
  destruct (aws_getToken_token_file (aws_world "  eyJhbGciOi.token  "))
    as [_ Hset].
  split.
  - apply Hunset. left. reflexivity.
  - apply (Hset "/var/run/token"); [reflexivity | discriminate | reflexivity].
Defined.

Section GcpProperties.

Variable URL_toString : URL -> string.
Variable http_get : World -> string -> RequestOptions -> Result string.

(** C7, with an empty audience counted as a missing one. Without
    credentials, without [TOKEN_AUDIENCE] or with
    an empty one, [getToken] fails with the GCP error and leaves the
    world untouched (no request is made); with a non-empty
    [TOKEN_AUDIENCE] it makes one request, to the base address with the
    [audience] search parameter set to that value and the header
    [Metadata-Flavor: Google], and the body answered is the
    [access_token] of the result. *)
Theorem gcp_getToken_audience (credentials : option MongoCredentials) (w : World) :
  (credentials ≫= (fun c => TOKEN_AUDIENCE (mechanismProperties c)) = None ∨
   credentials ≫= (fun c => TOKEN_AUDIENCE (mechanismProperties c)) = Some "" →
   Gcp.getToken URL_toString http_get credentials w
   = (Err (MongoGCPError Gcp.TOKEN_AUDIENCE_MISSING_ERROR), w)) ∧
  (∀ audience,
     credentials ≫= (fun c => TOKEN_AUDIENCE (mechanismProperties c))
       = Some audience →
     audience ≠ "" →
     ∃ url options,
       address url = Gcp.GCP_BASE_URL ∧
       searchParams_get url "audience" = Some audience ∧
       header options "Metadata-Flavor" = Some "Google" ∧
       json options = false ∧
       Gcp.getToken URL_toString http_get credentials w
       = (match http_get w (URL_toString url) options with
          | Ok body => Ok {| access_token := body; expires_in := None |}
          | Err e => Err e
          end,
          emit (EvRequest (URL_toString url) options) w)).
Proof.
  unfold Gcp.getToken. split.
  - by intros [-> | ->].
  - intros audience -> Hne; simpl. rewrite bool_decide_eq_false_2 by done; simpl.
    exists (searchParams_append (Gcp.new_URL Gcp.GCP_BASE_URL) "audience" audience),
      {| json := false; headers := Gcp.GCP_HEADERS |}.
    split_and!; [done..|].
    + unfold Gcp.getGcpTokenData, Gcp.request, bind, ret.
      by destruct (http_get _ _ _).
Qed.

End GcpProperties.

Lemma gcp_getToken_audience_witness :
  Gcp.getToken sample_URL_toString sample_http_get
    (Some (gcp_credentials None)) (sample_world None)
  = (Err (MongoGCPError Gcp.TOKEN_AUDIENCE_MISSING_ERROR), sample_world None) ∧
  ∃ url options,
    address url = Gcp.GCP_BASE_URL ∧
    searchParams_get url "audience" = Some "my-audience" ∧
    header options "Metadata-Flavor" = Some "Google" ∧
    json options = false ∧
    Gcp.getToken sample_URL_toString sample_http_get
      (Some (gcp_credentials (Some "my-audience"))) (sample_world None)
    = (match sample_http_get (sample_world None) (sample_URL_toString url) options with
       | Ok body => Ok {| access_token := body; expires_in := None |}
       | Err e => Err e
       end,
       emit (EvRequest (sample_URL_toString url) options) (sample_world None)).
Proof.
  destruct (gcp_getToken_audience sample_URL_toString sample_http_get
              (Some (gcp_credentials None)) (sample_world None)) as [Hmissing _].
  destruct (gcp_getToken_audience sample_URL_toString sample_http_get
              (Some (gcp_credentials (Some "my-audience"))) (sample_world None))
    as [_ Hpresent].
  split.
  - apply Hmissing. left. reflexivity.
  - apply (Hpresent "my-audience"); [reflexivity | discriminate].
Defined.

(** C7, the case of a [TOKEN_AUDIENCE] that is present and empty: the
    property is there, yet [getToken] throws and makes no request, so no
    request carries the configured value and no token is returned. *)
Lemma gcp_getToken_empty_audience_counterexample :
  TOKEN_AUDIENCE (mechanismProperties (gcp_credentials (Some ""))) = Some "" ∧
  Gcp.getToken sample_URL_toString sample_http_get
    (Some (gcp_credentials (Some ""))) (sample_world None)
  = (Err (MongoGCPError Gcp.TOKEN_AUDIENCE_MISSING_ERROR), sample_world None) ∧
  ¬ (∃ uri options,
       EvRequest uri options ∈
         trace (Gcp.getToken sample_URL_toString sample_http_get
                  (Some (gcp_credentials (Some ""))) (sample_world None)).2).
Proof.
  split_and!; [reflexivity..|].
  intros (uri & options & H). simpl in H. by apply elem_of_nil in H.
Qed.

(** * Further properties *)

(** ** The token cache *)

(** X1. What [put] stores is what [get] returns, provided it is truthy;
    a falsy value put in the cache ([undefined], [null], an empty
    string, zero) counts as no token, and [get] throws. *)
Theorem TokenCache_put_get (c : TokenCache.t) (result : value) :
  TokenCache.hasToken (TokenCache.put c result) = truthy result ∧
  TokenCache.get (TokenCache.put c result)
  = if truthy result then Ok result else Err (MongoDriverError "no token").
Proof.
  unfold TokenCache.hasToken, TokenCache.get, TokenCache.put; simpl.
  by destruct (truthy result).
Qed.

(** X2. [get] succeeds exactly when [hasToken] answers true, and what it
    returns is truthy; after [remove] the cache has no token whatever it
    held, a later [put] is not affected by what was there before, and
    the last [put] wins. *)
Theorem TokenCache_get_remove (c : TokenCache.t) :
  (TokenCache.hasToken c = true ↔ ∃ v, TokenCache.get c = Ok v) ∧
  (∀ v, TokenCache.get c = Ok v →
     v = TokenCache.tokenResult c ∧ truthy v = true) ∧
  TokenCache.hasToken (TokenCache.remove c) = false ∧
  TokenCache.get (TokenCache.remove c) = Err (MongoDriverError "no token") ∧
  (∀ r, TokenCache.put (TokenCache.remove c) r = TokenCache.put c r) ∧
  (∀ r1 r2, TokenCache.put (TokenCache.put c r1) r2 = TokenCache.put c r2).
Proof.
  unfold TokenCache.hasToken, TokenCache.get.
  destruct (truthy (TokenCache.tokenResult c)) eqn:Ht; simpl;
    split_and!; try done.
  - split; [eauto | done].
  - by intros v [= <-].
  - split; [done | by intros [v ?]].
Qed.

Lemma TokenCache_get_remove_witness :
  literal {[ "accessToken" := JStr "cached" ]}
    = TokenCache.tokenResult
        {| TokenCache.tokenResult := literal {[ "accessToken" := JStr "cached" ]} |} ∧
  truthy (literal {[ "accessToken" := JStr "cached" ]}) = true.
Proof.
  destruct (TokenCache_get_remove
              {| TokenCache.tokenResult :=
                   literal {[ "accessToken" := JStr "cached" ]} |})
    as (_ & Hget & _).
  apply Hget. reflexivity.
Defined.

(** ** Validation of callback results *)

Lemma own_property_names (own : gmap string value) (proto : value) (k : string) :
  k ∈ getOwnPropertyNames (JObj own proto) ↔ is_Some (own !! k).
Proof.
  unfold getOwnPropertyNames. rewrite list_elem_of_fmap. split.
  - intros ([k' v] & -> & Hin). apply elem_of_map_to_list in Hin. by exists v.
  - intros [v Hv]. exists (k, v). split; [done|]. by apply elem_of_map_to_list.
Qed.

(** X3. A callback result is accepted exactly when it is an object with
    an [accessToken] property, own or inherited, all of whose own
    properties are among [accessToken], [expiresInSeconds],
    [refreshToken]. *)
Theorem callback_result_accepted_iff (result : value) :
  isCallbackResultInvalid result = false ↔
  ∃ own proto,
    result = JObj own proto ∧
    has_property result "accessToken" = true ∧
    ∀ k, is_Some (own !! k) → k ∈ RESULT_PROPERTIES.
Proof.
  split.
  - intros Hvalid.
    destruct (valid_result_is_object _ Hvalid) as (own & proto & ->).
    exists own, proto. split; [done|].
    assert (¬ rejected_by_spec (JObj own proto)) as Hnot.
    { rewrite <- isCallbackResultInvalid_spec. by rewrite Hvalid. }
    split.
    + destruct (has_property _ _) eqn:Hp; [done|].
      exfalso. apply Hnot. by right; right; left.
    + intros k Hk. destruct (decide (k ∈ RESULT_PROPERTIES)) as [|Hout]; [done|].
      exfalso. apply Hnot. right; right; right. exists k.
      split; [by apply own_property_names | done].
  - intros (own & proto & -> & Hp & Hall).
    destruct (isCallbackResultInvalid _) eqn:Hinv; [|done].
    apply isCallbackResultInvalid_spec in Hinv
      as [?|[?|[Hno|(k & Hk & Hout)]]]; [done|done|congruence|].
    apply own_property_names in Hk. by apply Hall in Hk.
Qed.

(** X4. Validation looks at the names of the properties only: an object
    whose other own properties are allowed is accepted with any value
    for [accessToken], [undefined] and numbers included. *)
Theorem accessToken_value_unchecked
    (token : value) (own : gmap string value) (proto : value) :
  (∀ k, is_Some (own !! k) → k ∈ RESULT_PROPERTIES) →
  isCallbackResultInvalid (JObj (<["accessToken" := token]> own) proto) = false.
Proof.
  intros Hown.
  destruct (isCallbackResultInvalid _) eqn:Hinv; [|done].
  apply isCallbackResultInvalid_spec in Hinv
    as [?|[?|[Hno|(k & Hk & Hout)]]]; [done|done| |].
  - simpl in Hno. by rewrite lookup_insert_eq in Hno.
  - apply own_property_names in Hk as [v Hk]. exfalso. apply Hout.
    destruct (decide (k = "accessToken")) as [->|Hne].
    + set_solver.
    + rewrite lookup_insert_ne in Hk by done. apply Hown. by exists v.
Qed.

Lemma accessToken_value_unchecked_witness :
  isCallbackResultInvalid
    (JObj (<["accessToken" := JUndefined]> {[ "refreshToken" := JNum 5 ]})
       Object_prototype) = false.
Proof.
  apply (accessToken_value_unchecked JUndefined
           {[ "refreshToken" := JNum 5 ]} Object_prototype).
  intros k [v Hk]. destruct (decide (k = "refreshToken")) as [->|Hne].
  - set_solver.
  - by rewrite lookup_singleton_ne in Hk.
Defined.

Lemma callback_result_accepted_iff_witness :
  isCallbackResultInvalid
    (literal {[ "accessToken" := JStr "t"; "refreshToken" := JStr "r" ]}) = false.
Proof.
  apply callback_result_accepted_iff.
  eexists _, _. split; [reflexivity|]. split; [vm_compute; reflexivity|].
  intros k [v Hk].
  destruct (decide (k = "accessToken")) as [->|Hne1]; [set_solver|].
  destruct (decide (k = "refreshToken")) as [->|Hne2]; [set_solver|].
  rewrite lookup_insert_ne in Hk by done.
  by rewrite lookup_singleton_ne in Hk.
Defined.

(** ** The shape of a run of the callback workflow *)

Lemma get_property_nullish (v : value) (k : string) :
  nullish v = true → ∃ message, get_property v k = Err (TypeError message).
Proof. destruct v; try done; simpl; eauto. Qed.

Lemma get_property_object (v : value) (k : string) :
  nullish v = false → get_property v k = Ok (lookup_chain v k).
Proof. by destruct v. Qed.

Lemma getCallback_returns_fn (mp : AuthMechanismProperties)
    (info : OIDCCallbackInfo) (fn : OIDCCallbackFunction) :
  getCallback mp = Ok info → callback info = Some fn → OIDC_CALLBACK mp = Some fn.
Proof.
  intros (machine & human & Hm & _ & ->)%getCallback_ok_inv; simpl.
  by intros [= <-].
Qed.

Ltac seven_goals := split; [|split; [|split; [|split; [|split; [|split]]]]].

Section CallbackWorkflowRuns.

Variable ns : string -> MongoDBNamespace.
Variable startCommandDocument : MongoCredentials -> gmap string value.
Variable finishCommandDocument : value -> value -> value.
Variable BSON_deserialize : value -> Result value.

#[local] Notation "'start_command' credentials" :=
  (EvCommand (ns (source credentials)) (literal (startCommandDocument credentials)))
  (at level 10, credentials at level 9, only parsing).
#[local] Notation "'finish_command' credentials token cid" :=
  (EvCommand (ns (source credentials)) (finishCommandDocument token cid))
  (at level 10, credentials at level 9, token at level 9, cid at level 9,
   only parsing).
#[local] Abbreviation startAuthentication' :=
  (startAuthentication ns startCommandDocument).
#[local] Abbreviation finishAuthentication' :=
  (finishAuthentication ns finishCommandDocument).
#[local] Abbreviation execute' :=
  (execute ns startCommandDocument finishCommandDocument BSON_deserialize).
#[local] Abbreviation reauthenticate' :=
  (reauthenticate ns startCommandDocument finishCommandDocument BSON_deserialize).
#[local] Abbreviation startConversation' :=
  (startConversation ns startCommandDocument BSON_deserialize).

Lemma startAuthentication_cases connection credentials response w r w1 :
  startAuthentication' connection credentials response w = (r, w1) →
  (w1 = w ∧ truthy (get_property_opt response "speculativeAuthenticate") = true) ∨
  (w1 = emit (start_command credentials) w ∧
   truthy (get_property_opt response "speculativeAuthenticate") = false ∧
   r = command connection w (ns (source credentials))
         (literal (startCommandDocument credentials))).
Proof.
  unfold startAuthentication, bind, lift, ret, connection_command.
  destruct (truthy _).
  - destruct (get_property _ _); intros [= <- <-]; by left.
  - destruct (command _ _ _ _); intros [= <- <-]; by right.
Qed.

Lemma startConversation_cases connection credentials response w r w1 :
  startConversation' connection credentials response w = (r, w1) →
  w1 = w ∨
  (w1 = emit (start_command credentials) w ∧
   truthy (get_property_opt response "speculativeAuthenticate") = false).
Proof.
  unfold startConversation, bind, lift, ret.
  destruct (getCallback _); [|intros [= <- <-]; by left].
  destruct (startAuthentication' _ _ _ _) as [[sd|e] w2] eqn:Hs;
    apply startAuthentication_cases in Hs.
  - destruct (get_property sd "conversationId"); [|by intros [= <- <-]; tauto].
    destruct (get_property sd "payload") as [p|]; [|by intros [= <- <-]; tauto].
    destruct (get_property p "buffer") as [b|]; [|by intros [= <- <-]; tauto].
    destruct (BSON_deserialize b); intros [= <- <-]; tauto.
  - intros [= <- <-]; tauto.
Qed.

Lemma startConversation_ok_cases connection credentials response w x w1 :
  startConversation' connection credentials response w = (Ok x, w1) →
  (w1 = w ∧
   truthy (get_property_opt response "speculativeAuthenticate") = true) ∨
  (w1 = emit (start_command credentials) w ∧
   truthy (get_property_opt response "speculativeAuthenticate") = false).
Proof.
  unfold startConversation, bind, lift, ret.
  destruct (getCallback _); [|done].
  destruct (startAuthentication' _ _ _ _) as [[sd|e] w2] eqn:Hs; [|done].
  apply startAuthentication_cases in Hs.
  destruct (get_property sd "conversationId"); [|done].
  destruct (get_property sd "payload") as [p|]; [|done].
  destruct (get_property p "buffer") as [b|]; [|done].
  destruct (BSON_deserialize b); [|done].
  intros [= <- <-]. tauto.
Qed.

Lemma startConversation_speculative connection credentials response w r w1 :
  truthy (get_property_opt response "speculativeAuthenticate") = true →
  startConversation' connection credentials response w = (r, w1) →
  w1 = w.
Proof.
  intros Hspec [->|[_ Hno]]%startConversation_cases; [done | congruence].
Qed.

Lemma startConversation_info connection credentials response w info cid idp w1 :
  startConversation' connection credentials response w = (Ok (info, cid, idp), w1) →
  getCallback (mechanismProperties credentials) = Ok info.
Proof.
  unfold startConversation, bind, lift, ret.
  repeat case_match; naive_solver.
Qed.

Lemma finishAuthentication_cases connection credentials tokenResult cid w r w' :
  finishAuthentication' connection credentials tokenResult cid w = (r, w') →
  (w' = w ∧ ∃ e, r = Err e) ∨
  (∃ token,
     get_property tokenResult "accessToken" = Ok token ∧
     w' = emit (finish_command credentials token cid) w ∧
     r = command connection w (ns (source credentials))
           (finishCommandDocument token cid)).
Proof.
  unfold finishAuthentication, bind, lift, ret, connection_command.
  destruct (get_property _ _) as [token|e].
  - destruct (command _ _ _ _) eqn:Hc; intros [= <- <-]; right; by exists token.
  - intros [= <- <-]. left. eauto.
Qed.

(** Every run of [execute] makes its calls in this order, each at most
    once: the start command, the callback, the finish command. *)
Lemma execute_shape connection credentials response w res w' :
  execute' connection credentials response w = (res, w') →
  ∃ starts calls finishes,
    trace w' = trace w ++ starts ++ calls ++ finishes ∧
    env w' = env w ∧ files w' = files w ∧
    (starts = [] ∨
     (starts = [start_command credentials] ∧
      truthy (get_property_opt response "speculativeAuthenticate") = false)) ∧
    (finishes = [] ∨
     ∃ token cid, finishes = [finish_command credentials token cid]) ∧
    ((calls = [] ∧ cache w' = cache w ∧ (finishes ≠ [] → holds_token w = true)) ∨
     (∃ info idp,
        getCallback (mechanismProperties credentials) = Ok info ∧
        calls = [EvCallback (callback_params idp info)] ∧
        holds_token w = false ∧
        ((finishes = [] ∧ cache w' = cache w ∧ ∃ e, res = Err e) ∨
         (∃ r fn w1,
            callback info = Some fn ∧
            ((w1 = w ∧
              truthy (get_property_opt response "speculativeAuthenticate") = true) ∨
             (w1 = emit (start_command credentials) w ∧
              truthy (get_property_opt response "speculativeAuthenticate") = false)) ∧
            fn w1 (callback_params idp info) = Ok r ∧
            isCallbackResultInvalid r = false ∧
            cache w' = (fun c => TokenCache.put c r) <$> cache w)))) ∧
    (∀ v, res = Ok v → finishes ≠ []).
Proof.
  intros Hrun.
  destruct (startConversation' connection credentials response w)
    as [[[[info cid] idp]|e] w1] eqn:Hs.
  2:{ rewrite (execute_start_fails _ _ _ _ _ _ _ _ _ _ Hs) in Hrun.
      injection Hrun as <- <-.
      apply startConversation_cases in Hs as [->|[-> Hno]].
      - exists [], [], []. seven_goals.
        + by rewrite !app_nil_r.
        + done.
        + done.
        + by left.
        + by left.
        + by left.
        + done.
      - exists [start_command credentials], [], []. seven_goals.
        + done.
        + done.
        + done.
        + by right.
        + by left.
        + by left.
        + done. }
  pose proof (startConversation_info _ _ _ _ _ _ _ _ Hs) as Hinfo.
  pose proof (startConversation_ok_cases _ _ _ _ _ _ Hs) as Hw1.
  assert (cache w1 = cache w ∧ env w1 = env w ∧ files w1 = files w ∧
          ∃ starts, trace w1 = trace w ++ starts ∧
            (starts = [] ∨
             (starts = [start_command credentials] ∧
              truthy (get_property_opt response "speculativeAuthenticate") = false)))
    as (Hc1 & He1 & Hf1 & starts & Ht1 & Hstarts).
  { pose proof Hs as [->|[-> Hno]]%startConversation_cases.
    - split_and!; try done. exists []. rewrite app_nil_r. split; [done | by left].
    - split_and!; try done. exists [start_command credentials].
      split; [done | by right]. }
  destruct (holds_token w) eqn:Hhold.
  - (* the cached token is used *)
    unfold holds_token in Hhold.
    destruct (cache w) as [c|] eqn:Hc; [|done]. simpl in Hhold.
    rewrite (execute_hit _ _ _ _ _ _ _ _ _ _ _ _ _ Hs Hc Hhold) in Hrun.
    apply finishAuthentication_cases in Hrun
      as [[-> [e ->]]|(token & _ & -> & ->)].
    + exists starts, [], []. seven_goals.
      * by rewrite !app_nil_r.
      * done.
      * done.
      * done.
      * by left.
      * by left.
      * done.
    + exists starts, [], [finish_command credentials token cid]. seven_goals.
      * simpl. by rewrite ?Ht1, ?app_nil_r, <- ?app_assoc.
      * done.
      * done.
      * done.
      * right. eauto.
      * left. split_and!; [done | exact Hc1 | done].
      * done.
  - (* the callback is called *)
    rewrite (execute_miss _ _ _ _ _ _ _ _ _ _ _ _ Hs Hhold) in Hrun.
    destruct (getCallback_ok_inv _ _ Hinfo) as (fn & human & _ & _ & Hi).
    assert (callback info = Some fn) as Hcb by (by rewrite Hi).
    unfold bind at 1 in Hrun.
    rewrite (fetchAccessToken_calls _ _ _ _ _ _ Hcb) in Hrun.
    destruct (fn w1 (callback_params idp info)) as [r|e] eqn:Hfn.
    2:{ injection Hrun as <- <-.
        exists starts, [EvCallback (callback_params idp info)], []. seven_goals.
        - simpl. by rewrite ?Ht1, ?app_nil_r, <- ?app_assoc.
        - done.
        - done.
        - done.
        - by left.
        - right. exists info, idp. split_and!; [done..|].
          left. split_and!; [done | exact Hc1 | eauto].
        - done. }
    destruct (isCallbackResultInvalid r) eqn:Hvalid.
    { injection Hrun as <- <-.
      exists starts, [EvCallback (callback_params idp info)], []. seven_goals.
      - simpl. by rewrite ?Ht1, ?app_nil_r, <- ?app_assoc.
      - done.
      - done.
      - done.
      - by left.
      - right. exists info, idp. split_and!; [done..|].
        left. split_and!; [done | exact Hc1 | eauto].
      - done. }
    unfold bind, cache_put in Hrun.
    apply finishAuthentication_cases in Hrun
      as [[-> [e ->]]|(token & _ & -> & ->)].
    + exists starts, [EvCallback (callback_params idp info)], []. seven_goals.
      * simpl. by rewrite ?Ht1, ?app_nil_r, <- ?app_assoc.
      * done.
      * done.
      * done.
      * by left.
      * right. exists info, idp. split_and!; [done..|].
        right. exists r, fn, w1. split_and!; [done..|]. simpl. by rewrite Hc1.
      * done.
    + exists starts, [EvCallback (callback_params idp info)],
        [finish_command credentials token cid]. seven_goals.
      * simpl. by rewrite ?Ht1, ?app_nil_r, <- ?app_assoc.
      * done.
      * done.
      * done.
      * right. eauto.
      * right. exists info, idp. split_and!; [done..|].
        right. exists r, fn, w1. split_and!; [done..|]. simpl. by rewrite Hc1.
      * done.
Qed.

(** X5. Whatever happens, [execute] calls the outside in this order and
    each at most once: the start command, the callback, the finish
    command; with a speculative response in hand it sends no start
    command. *)
Theorem execute_calls_in_order
    (connection : Connection) (credentials : MongoCredentials)
    (response : value) (w : World) :
  ∃ starts calls finishes,
    events_since w (execute' connection credentials response w).2
      = starts ++ calls ++ finishes ∧
    (starts = [] ∨ starts = [start_command credentials]) ∧
    (calls = [] ∨ ∃ idp info, calls = [EvCallback (callback_params idp info)]) ∧
    (finishes = [] ∨
     ∃ token cid, finishes = [finish_command credentials token cid]) ∧
    (truthy (get_property_opt response "speculativeAuthenticate") = true →
     starts = []).
Proof.
  destruct (execute' connection credentials response w) as [res w'] eqn:Hrun.
  apply execute_shape in Hrun
    as (starts & calls & finishes & Ht & _ & _ & Hs & Hf & Hc & _).
  exists starts, calls, finishes. split_and!.
  - by apply events_since_app.
  - destruct Hs as [->|[-> _]]; [by left | by right].
  - destruct Hc as [(-> & _)|(info & idp & _ & -> & _)]; [by left | right; eauto].
  - done.
  - intros Hspec. destruct Hs as [->|[_ Hno]]; [done | congruence].
Qed.

(** X6. [execute] never clears the cache and stores nothing but what
    the configured callback answered, once validated: afterwards the
    cache is what it was, or it holds the valid result that
    [OIDC_CALLBACK] returned when called in this run (in the world of
    the call, right after the conversation start); the environment and
    the files are untouched. *)
Theorem execute_cache_validated
    (connection : Connection) (credentials : MongoCredentials)
    (response : value) (w : World) :
  (cache (execute' connection credentials response w).2 = cache w ∨
   ∃ info idp fn w1 r,
     getCallback (mechanismProperties credentials) = Ok info ∧
     OIDC_CALLBACK (mechanismProperties credentials) = Some fn ∧
     (w1 = w ∨ w1 = emit (start_command credentials) w) ∧
     EvCallback (callback_params idp info) ∈
       events_since w (execute' connection credentials response w).2 ∧
     fn w1 (callback_params idp info) = Ok r ∧
     isCallbackResultInvalid r = false ∧
     cache (execute' connection credentials response w).2
       = (fun c => TokenCache.put c r) <$> cache w) ∧
  env (execute' connection credentials response w).2 = env w ∧
  files (execute' connection credentials response w).2 = files w.
Proof.
  destruct (execute' connection credentials response w) as [res w'] eqn:Hrun.
  apply execute_shape in Hrun
    as (starts & calls & finishes & Ht & He & Hf & _ & _ & Hc & _).
  simpl. rewrite (events_since_app _ _ _ Ht).
  split_and!; [|done..].
  destruct Hc as [(_ & Hc & _)|(info & idp & Hinfo & -> & _ & [(_ & Hc & _)|Hc])];
    [by left | by left |].
  destruct Hc as (r & fn & w1 & Hcb & Hw1 & Hfn & Hvalid & Hc).
  right. exists info, idp, fn, w1, r.
  pose proof (getCallback_returns_fn _ _ _ Hinfo Hcb) as Hmachine.
  split_and!; [done | done | | | done..].
  - destruct Hw1 as [[-> _]|[-> _]]; [by left | by right].
  - apply elem_of_app. right. apply elem_of_app. left.
    by apply list_elem_of_singleton.
Qed.

(** X7. When [execute] succeeds and a cache was passed, the cache holds
    a token afterwards, and the last call made is the finish command. *)
Theorem execute_success_caches
    (connection : Connection) (credentials : MongoCredentials)
    (response : value) (w w' : World) (c : TokenCache.t) (final : value) :
  execute' connection credentials response w = (Ok final, w') →
  cache w = Some c →
  holds_token w' = true ∧
  ∃ token cid, last (trace w') = Some (finish_command credentials token cid).
Proof.
  intros Hrun Hcache.
  apply execute_shape in Hrun
    as (starts & calls & finishes & Ht & _ & _ & _ & Hf & Hc & Hok).
  specialize (Hok final eq_refl).
  destruct Hf as [->|(token & cid & ->)]; [done|]. split.
  - unfold holds_token in *.
    destruct Hc as [(_ & -> & Hhit)|(info & idp & _ & _ & _ & [(? & _)|Hc])].
    + by apply Hhit.
    + done.
    + destruct Hc as (r & fn & w1 & _ & _ & _ & Hvalid & ->).
      rewrite Hcache; simpl. by apply valid_result_truthy.
  - exists token, cid. by rewrite Ht, !app_assoc, last_snoc.
Qed.

(** X8. A callback that rejects makes [execute] fail with the same
    reason right after the call: nothing is stored in the cache and no
    finish command is sent. *)
Theorem callback_rejection_propagates
    (connection : Connection) (credentials : MongoCredentials)
    (response : value) (w w1 : World) (info : OIDCCallbackInfo)
    (cid idp : value) (fn : OIDCCallbackFunction) (e : Error) :
  holds_token w = false →
  startConversation' connection credentials response w
    = (Ok (info, cid, idp), w1) →
  callback info = Some fn →
  fn w1 (callback_params idp info) = Err e →
  execute' connection credentials response w
    = (Err e, emit (EvCallback (callback_params idp info)) w1) ∧
  cache (execute' connection credentials response w).2 = cache w.
Proof.
  intros Hempty Hs Hcb Hfn.
  assert (execute' connection credentials response w
    = (Err e, emit (EvCallback (callback_params idp info)) w1)) as Hexec.
  { rewrite (execute_miss _ _ _ _ _ _ _ _ _ _ _ _ Hs Hempty).
    unfold bind at 1.
    by rewrite (fetchAccessToken_calls _ _ _ _ _ _ Hcb), Hfn. }
  split; [done|]. rewrite Hexec.
  by apply startConversation_cache in Hs as [Hc1 _].
Qed.

(** X9. When the server answers the start command with [null] or with a
    document without [payload], [execute] fails with a [TypeError] right
    after that command: the callback is not called, no finish command is
    sent and the cache is left as it was. *)
Theorem execute_malformed_start
    (connection : Connection) (credentials : MongoCredentials)
    (response : value) (w : World) (info : OIDCCallbackInfo)
    (startDocument : value) :
  getCallback (mechanismProperties credentials) = Ok info →
  truthy (get_property_opt response "speculativeAuthenticate") = false →
  command connection w (ns (source credentials))
    (literal (startCommandDocument credentials)) = Ok startDocument →
  nullish startDocument = true ∨
  nullish (lookup_chain startDocument "payload") = true →
  ∃ message,
    execute' connection credentials response w
    = (Err (TypeError message), emit (start_command credentials) w).
Proof.
  intros Hinfo Hspec Hcmd Hbad.
  assert (startAuthentication' connection credentials response w
          = (Ok startDocument, emit (start_command credentials) w)) as Hstart.
  { unfold startAuthentication, bind, ret, connection_command.
    by rewrite Hspec, Hcmd. }
  unfold execute. unfold bind at 1, lift at 1. rewrite Hinfo.
  unfold bind at 1. rewrite Hstart.
  destruct (nullish startDocument) eqn:Hnull.
  - destruct (get_property_nullish _ "conversationId" Hnull) as [message Hget].
    exists message. unfold bind at 1, lift at 1. by rewrite Hget.
  - destruct Hbad as [?|Hpayload]; [done|].
    unfold bind at 1, lift at 1.
    rewrite (get_property_object _ "conversationId" Hnull).
    unfold bind at 1, lift at 1.
    rewrite (get_property_object _ "payload" Hnull).
    destruct (get_property_nullish _ "buffer" Hpayload) as [message Hget].
    exists message. unfold bind at 1, lift at 1. by rewrite Hget.
Qed.

(** X10. Every callback invocation made by [execute] happens with an
    empty cache and is given version 1, a timeout of 300000
    milliseconds and no refresh token. *)
Theorem execute_callback_params
    (connection : Connection) (credentials : MongoCredentials)
    (response : value) (w : World) (params : OIDCCallbackParams) :
  EvCallback params ∈
    events_since w (execute' connection credentials response w).2 →
  holds_token w = false ∧
  version params = 1%Z ∧
  timeoutContext params = 300000%Z ∧
  refreshToken params = None.
Proof.
  destruct (execute' connection credentials response w) as [res w'] eqn:Hrun.
  apply execute_shape in Hrun
    as (starts & calls & finishes & Ht & _ & _ & Hs & Hf & Hc & _).
  simpl. rewrite (events_since_app _ _ _ Ht). intros Hin.
  assert (EvCallback params ∈ calls) as Hcall.
  { apply elem_of_app in Hin as [Hin|Hin].
    - destruct Hs as [->|[-> _]]; [by apply elem_of_nil in Hin|].
      by apply list_elem_of_singleton in Hin.
    - apply elem_of_app in Hin as [Hin|Hin]; [done|].
      destruct Hf as [->|(token & cid & ->)]; [by apply elem_of_nil in Hin|].
      by apply list_elem_of_singleton in Hin. }
  destruct Hc as [(-> & _)|(info & idp & _ & -> & Hempty & _)].
  - by apply elem_of_nil in Hcall.
  - apply list_elem_of_singleton in Hcall. injection Hcall as ->.
    split_and!; [done|done| |done].
    unfold callback_params; simpl. by destruct (isHumanWorkflow info).
Qed.

Lemma callback_invocations_call (starts finishes : list Event)
    (params : OIDCCallbackParams) :
  1 ≤ callback_invocations (starts ++ [EvCallback params] ++ finishes).
Proof.
  unfold callback_invocations.
  rewrite !List.filter_app, !length_app; simpl. lia.
Qed.

(** X11. After [reauthenticate], whatever its outcome, a token in the
    cache is the validated result that [OIDC_CALLBACK] returned when it
    was called during this call, right after the start command; when the
    callback was not called, the cache holds no token, even if it held
    one before. *)
Theorem reauthenticate_token_is_fresh
    (connection : Connection) (credentials : MongoCredentials) (w : World) :
  (callback_invocations
     (events_since w (reauthenticate' connection credentials w).2) = 0 →
   holds_token (reauthenticate' connection credentials w).2 = false) ∧
  (holds_token (reauthenticate' connection credentials w).2 = true →
   ∃ info idp fn r,
     getCallback (mechanismProperties credentials) = Ok info ∧
     OIDC_CALLBACK (mechanismProperties credentials) = Some fn ∧
     EvCallback (callback_params idp info) ∈
       events_since w (reauthenticate' connection credentials w).2 ∧
     fn (emit (start_command credentials) (removed w))
        (callback_params idp info) = Ok r ∧
     isCallbackResultInvalid r = false ∧
     cache (reauthenticate' connection credentials w).2
       = (fun c => TokenCache.put c r) <$> cache w).
Proof.
  change (reauthenticate' connection credentials w)
    with (execute' connection credentials JUndefined (removed w)).
  destruct (execute' connection credentials JUndefined (removed w))
    as [res w'] eqn:Hrun. simpl.
  apply execute_shape in Hrun
    as (starts & calls & finishes & Ht & _ & _ & _ & _ & Hc & _).
  change (trace (removed w)) with (trace w) in Ht.
  rewrite (events_since_app _ _ _ Ht).
  assert (holds_token (removed w) = false) as Hempty
    by apply cache_remove_empty.
  destruct Hc
    as [(-> & Hc & _)|(info & idp & Hinfo & -> & _ & [(_ & Hc & _)|Hc])].
  - split.
    + intros _. unfold holds_token in *. by rewrite Hc.
    + intros Hh. unfold holds_token in *. rewrite Hc in Hh. congruence.
  - split.
    + intros _. unfold holds_token in *. by rewrite Hc.
    + intros Hh. unfold holds_token in *. rewrite Hc in Hh. congruence.
  - destruct Hc as (r & fn & w1 & Hcb & Hw1 & Hfn & Hvalid & Hc). split.
    + intros Hzero.
      pose proof (callback_invocations_call starts finishes
                    (callback_params idp info)). lia.
    + intros _. exists info, idp, fn, r.
      destruct Hw1 as [[_ Hspec]|[-> _]]; [done|].
      pose proof (getCallback_returns_fn _ _ _ Hinfo Hcb) as Hmachine.
      split_and!; [done | done | | done | done |].
      * apply elem_of_app. right. apply elem_of_app. left.
        by apply list_elem_of_singleton.
      * rewrite Hc. unfold removed; simpl. by destruct (cache w).
Qed.

End CallbackWorkflowRuns.

(** ** Witnesses for the runs of the callback workflow *)

(** A response of the handshake that carries the start of conversation 7. *)
Lemma execute_calls_in_order_witness :
  ∃ starts calls finishes,
    events_since cached_world
      (execute sample_ns sample_startCommandDocument
         sample_finishCommandDocument sample_deserialize accepting_connection
         (sample_credentials None)
         (literal {[ "speculativeAuthenticate" := sample_startDocument ]})
         cached_world).2
      = starts ++ calls ++ finishes ∧
    starts = [].
Proof.
  destruct (execute_calls_in_order sample_ns sample_startCommandDocument
              sample_finishCommandDocument sample_deserialize
              accepting_connection (sample_credentials None)
              (literal {[ "speculativeAuthenticate" := sample_startDocument ]})
              cached_world)
    as (starts & calls & finishes & Hev & _ & _ & _ & Hspec).
  exists starts, calls, finishes. split; [exact Hev|].
  apply Hspec. vm_compute. reflexivity.
Defined.

Lemma execute_success_caches_witness :
  holds_token
    (execute sample_ns sample_startCommandDocument sample_finishCommandDocument
       sample_deserialize accepting_connection (sample_credentials None)
       JUndefined (sample_world (Some TokenCache.new))).2 = true.
Proof.
  eapply (execute_success_caches sample_ns sample_startCommandDocument
            sample_finishCommandDocument sample_deserialize
            accepting_connection (sample_credentials None) JUndefined
            (sample_world (Some TokenCache.new)) _ TokenCache.new).
  - vm_compute. reflexivity.
  - reflexivity.
Defined.

Lemma callback_rejection_propagates_witness :
  cache
    (execute sample_ns sample_startCommandDocument sample_finishCommandDocument
       sample_deserialize accepting_connection rejecting_credentials
       JUndefined (sample_world (Some TokenCache.new))).2
  = Some TokenCache.new.
Proof.
  eapply (callback_rejection_propagates sample_ns sample_startCommandDocument
            sample_finishCommandDocument sample_deserialize
            accepting_connection rejecting_credentials JUndefined
            (sample_world (Some TokenCache.new))
            (emit (EvCommand (sample_ns "$external")
                     (literal (sample_startCommandDocument rejecting_credentials)))
               (sample_world (Some TokenCache.new)))
            {| callback := Some (fun _ _ => Err (Rejected (JStr "user cancelled")));
               isHumanWorkflow := false |}
            (JNum 7) sample_idpInfo
            (fun _ _ => Err (Rejected (JStr "user cancelled")))
            (Rejected (JStr "user cancelled"))).
  - reflexivity.
  - vm_compute. reflexivity.
  - reflexivity.
  - reflexivity.
Defined.

Lemma execute_malformed_start_witness :
  ∃ message,
    execute sample_ns sample_startCommandDocument sample_finishCommandDocument
      sample_deserialize bare_connection (sample_credentials None)
      JUndefined (sample_world (Some TokenCache.new))
    = (Err (TypeError message),
       emit (EvCommand (sample_ns "$external")
               (literal (sample_startCommandDocument (sample_credentials None))))
         (sample_world (Some TokenCache.new))).
Proof.
  apply (execute_malformed_start sample_ns sample_startCommandDocument
           sample_finishCommandDocument sample_deserialize
           bare_connection (sample_credentials None) JUndefined
           (sample_world (Some TokenCache.new))
           {| callback := Some (sample_callback "tok1"); isHumanWorkflow := false |}
           (literal {[ "conversationId" := JNum 7 ]})).
  - reflexivity.
  - reflexivity.
  - reflexivity.
  - right. vm_compute. reflexivity.
Defined.

Lemma execute_callback_params_witness :
  holds_token (sample_world (Some TokenCache.new)) = false ∧
  version (callback_params sample_idpInfo
             {| callback := Some (sample_callback "tok1");
                isHumanWorkflow := false |}) = 1%Z ∧
  timeoutContext (callback_params sample_idpInfo
             {| callback := Some (sample_callback "tok1");
                isHumanWorkflow := false |}) = 300000%Z ∧
  refreshToken (callback_params sample_idpInfo
             {| callback := Some (sample_callback "tok1");
                isHumanWorkflow := false |}) = None.
Proof.
  apply (execute_callback_params sample_ns sample_startCommandDocument
           sample_finishCommandDocument sample_deserialize
           accepting_connection (sample_credentials None) JUndefined
           (sample_world (Some TokenCache.new))).
  vm_compute. apply list_elem_of_In. vm_compute. tauto.
Defined.

Lemma reauthenticate_token_is_fresh_witness :
  ∃ info idp fn r,
    getCallback (mechanismProperties (sample_credentials None)) = Ok info ∧
    OIDC_CALLBACK (mechanismProperties (sample_credentials None)) = Some fn ∧
    EvCallback (callback_params idp info) ∈
      events_since cached_world
        (reauthenticate sample_ns sample_startCommandDocument
           sample_finishCommandDocument sample_deserialize
           accepting_connection (sample_credentials None) cached_world).2 ∧
    fn (emit (EvCommand (sample_ns (source (sample_credentials None)))
                (literal (sample_startCommandDocument (sample_credentials None))))
          (removed cached_world))
       (callback_params idp info) = Ok r ∧
    isCallbackResultInvalid r = false ∧
    cache
      (reauthenticate sample_ns sample_startCommandDocument
         sample_finishCommandDocument sample_deserialize
         accepting_connection (sample_credentials None) cached_world).2
    = (fun c => TokenCache.put c r) <$> cache cached_world.
Proof.
  apply (reauthenticate_token_is_fresh sample_ns sample_startCommandDocument
           sample_finishCommandDocument sample_deserialize
           accepting_connection (sample_credentials None) cached_world).
  vm_compute. reflexivity.
Defined.

(** ** The auth provider *)

Section MongoDBOIDCProperties.

Variable ns : string -> MongoDBNamespace.
Variable startCommandDocument : MongoCredentials -> gmap string value.
Variable finishCommandDocument : value -> value -> value.
Variable BSON_deserialize : value -> Result value.
Variable machine_execute :
  Workflow -> Connection -> MongoCredentials -> value -> M value.
Variable machine_reauthenticate :
  Workflow -> Connection -> MongoCredentials -> M value.
Variable machine_speculativeAuth : Workflow -> MongoCredentials -> M value.

#[local] Abbreviation auth' :=
  (auth ns startCommandDocument finishCommandDocument BSON_deserialize
     machine_execute machine_reauthenticate).
#[local] Abbreviation prepare' :=
  (prepare startCommandDocument machine_speculativeAuth).

(** X12. Without credentials in the context, [auth] and [prepare] fail
    with the missing-credentials error; with credentials naming an
    unknown provider they fail with the error of the dispatcher. In both
    cases no workflow runs: the world is left as it was. *)
Theorem provider_fails_before_workflow
    (handshakeDoc : value) (authContext : AuthContext.t) (w : World) :
  (AuthContext.credentials authContext = None →
   auth' authContext w
     = (Err (MongoMissingCredentialsError MISSING_CREDENTIALS_ERROR), w) ∧
   prepare' handshakeDoc authContext w
     = (Err (MongoMissingCredentialsError MISSING_CREDENTIALS_ERROR), w)) ∧
  (∀ credentials e,
     AuthContext.credentials authContext = Some credentials →
     getWorkflow credentials = Err e →
     auth' authContext w = (Err e, w) ∧
     prepare' handshakeDoc authContext w = (Err e, w)).
Proof.
  unfold auth, prepare, getCredentials, bind, lift. split.
  - by intros ->.
  - by intros credentials e -> ->.
Qed.

(** X13. When reauthenticating through the callback workflow, the
    handshake response of the context plays no part, and a success
    means that [OIDC_CALLBACK] was called during this very call, right
    after the start command, and that the cache, if there is one, now
    holds the validated result it returned. *)
Theorem auth_reauthenticating_refreshes
    (connection : Connection) (credentials : MongoCredentials)
    (response : value) (w : World) :
  getWorkflow credentials = Ok CallbackWorkflow →
  let run response :=
    auth' {| AuthContext.connection := connection;
             AuthContext.credentials := Some credentials;
             AuthContext.reauthenticating := true;
             AuthContext.response := response |} w in
  (∀ response', run response' = run response) ∧
  ((run response).1 = Ok tt →
   1 ≤ callback_invocations (events_since w (run response).2) ∧
   ∃ info idp fn r,
     getCallback (mechanismProperties credentials) = Ok info ∧
     OIDC_CALLBACK (mechanismProperties credentials) = Some fn ∧
     EvCallback (callback_params idp info) ∈
       events_since w (run response).2 ∧
     fn (emit (EvCommand (ns (source credentials))
                 (literal (startCommandDocument credentials)))
           (removed w))
        (callback_params idp info) = Ok r ∧
     isCallbackResultInvalid r = false ∧
     cache (run response).2 = (fun c => TokenCache.put c r) <$> cache w).
Proof.
  intros Hwf run. split; [done|].
  assert (run response =
    match execute ns startCommandDocument finishCommandDocument
            BSON_deserialize connection credentials JUndefined (removed w) with
    | (Ok _, w') => (Ok tt, w')
    | (Err e, w') => (Err e, w')
    end) as ->.
  { unfold run, auth, getCredentials, bind, lift, ret; simpl. rewrite Hwf.
    unfold workflow_reauthenticate, reauthenticate, bind, cache_remove.
    fold (removed w). by repeat case_match. }
  destruct (execute _ _ _ _ _ _ _ _) as [[final|e] w'] eqn:Hrun; [|done].
  simpl. intros _.
  apply execute_shape in Hrun
    as (starts & calls & finishes & Ht & _ & _ & _ & _ & Hc & Hok).
  specialize (Hok final eq_refl).
  change (trace (removed w)) with (trace w) in Ht.
  rewrite (events_since_app _ _ _ Ht).
  destruct Hc as [(_ & _ & Hhit)|(info & idp & Hinfo & -> & _ & [(? & _)|Hc])].
  - specialize (Hhit Hok).
    assert (holds_token (removed w) = false) as Hempty
      by apply cache_remove_empty.
    congruence.
  - done.
  - split; [apply callback_invocations_call|].
    destruct Hc as (r & fn & w1 & Hcb & Hw1 & Hfn & Hvalid & ->).
    destruct Hw1 as [[_ Hspec]|[-> _]]; [done|].
    pose proof (getCallback_returns_fn _ _ _ Hinfo Hcb) as Hmachine.
    exists info, idp, fn, r. split_and!; [done | done | | done | done |].
    + apply elem_of_app. right. apply elem_of_app. left.
      by apply list_elem_of_singleton.
    + unfold removed; simpl. by destruct (cache w).
Qed.

(** X14. For credentials served by the callback workflow, [prepare]
    returns, without any call to the outside, a copy of the handshake
    document in which [speculativeAuthenticate] is the start command
    with its [db] set (replacing a value the handshake had there), every
    other property being the one of the handshake. *)
Theorem prepare_callback_merges
    (handshakeDoc : value) (authContext : AuthContext.t)
    (credentials : MongoCredentials) (w : World) :
  AuthContext.credentials authContext = Some credentials →
  getWorkflow credentials = Ok CallbackWorkflow →
  ∃ document,
    prepare' handshakeDoc authContext w = (Ok (literal document), w) ∧
    document !! "speculativeAuthenticate"
      = Some (literal (<["db" := JStr (source credentials)]>
                         (startCommandDocument credentials))) ∧
    ∀ k, k ≠ "speculativeAuthenticate" →
         document !! k = spread_properties handshakeDoc !! k.
Proof.
  intros Hcred Hwf.
  exists ({[ "speculativeAuthenticate" :=
               literal (<["db" := JStr (source credentials)]>
                          (startCommandDocument credentials)) ]}
          ∪ spread_properties handshakeDoc).
  split_and!.
  - unfold prepare, getCredentials, bind, lift. by rewrite Hcred, Hwf.
  - apply lookup_union_Some_l. by rewrite lookup_singleton_eq.
  - intros k Hk. rewrite lookup_union_r; [done|].
    by rewrite lookup_singleton_ne.
Qed.

End MongoDBOIDCProperties.

Lemma provider_fails_before_workflow_witness :
  auth sample_ns sample_startCommandDocument sample_finishCommandDocument
    sample_deserialize idle_execute idle_reauthenticate
    (sample_context None false JUndefined) cached_world
  = (Err (MongoMissingCredentialsError MISSING_CREDENTIALS_ERROR), cached_world) ∧
  prepare sample_startCommandDocument idle_speculativeAuth sample_handshake
    (sample_context (Some (sample_credentials (Some "okta"))) false JUndefined)
    cached_world
  = (Err (MongoInvalidArgumentError "Could not load workflow for provider okta"),
     cached_world).
Proof.
  destruct (provider_fails_before_workflow sample_ns sample_startCommandDocument
              sample_finishCommandDocument sample_deserialize
              idle_execute idle_reauthenticate idle_speculativeAuth
              sample_handshake (sample_context None false JUndefined)
              cached_world) as [Hmissing _].
  destruct (provider_fails_before_workflow sample_ns sample_startCommandDocument
              sample_finishCommandDocument sample_deserialize
              idle_execute idle_reauthenticate idle_speculativeAuth
              sample_handshake
              (sample_context (Some (sample_credentials (Some "okta"))) false
                 JUndefined)
              cached_world) as [_ Hunknown].
  split.
  - apply Hmissing. reflexivity.
  - apply (Hunknown (sample_credentials (Some "okta"))
             (MongoInvalidArgumentError "Could not load workflow for provider okta"));
      reflexivity.
Defined.

Lemma auth_reauthenticating_refreshes_witness :
  1 ≤ callback_invocations
        (events_since cached_world
           (auth sample_ns sample_startCommandDocument
              sample_finishCommandDocument sample_deserialize
              idle_execute idle_reauthenticate
              {| AuthContext.connection := accepting_connection;
                 AuthContext.credentials := Some (sample_credentials None);
                 AuthContext.reauthenticating := true;
                 AuthContext.response :=
                   literal {[ "speculativeAuthenticate" := sample_startDocument ]} |}
              cached_world).2).
Proof.
  destruct (auth_reauthenticating_refreshes sample_ns sample_startCommandDocument
              sample_finishCommandDocument sample_deserialize
              idle_execute idle_reauthenticate
              accepting_connection (sample_credentials None)
              (literal {[ "speculativeAuthenticate" := sample_startDocument ]})
              cached_world eq_refl) as [_ Hfresh].
  destruct Hfresh as [Hcount _]; [vm_compute; reflexivity|].
  exact Hcount.
Defined.

Lemma prepare_callback_merges_witness :
  ∃ document,
    prepare sample_startCommandDocument idle_speculativeAuth sample_handshake
      (sample_context (Some (sample_credentials None)) false JUndefined)
      cached_world
    = (Ok (literal document), cached_world) ∧
    document !! "speculativeAuthenticate"
      = Some (literal (<["db" := JStr "$external"]>
                         (sample_startCommandDocument (sample_credentials None)))) ∧
    ∀ k, k ≠ "speculativeAuthenticate" →
         document !! k = spread_properties sample_handshake !! k.
Proof.
  apply (prepare_callback_merges sample_startCommandDocument idle_speculativeAuth
           sample_handshake
           (sample_context (Some (sample_credentials None)) false JUndefined)
           (sample_credentials None) cached_world);
    reflexivity.
Defined.

(** ** Machine workflows, continued *)

(** X15. The AWS [getToken] reads at most one file and changes nothing
    else; when the variable names a file that does not exist, it fails
    with the rejection of the read, after that one attempt. *)
Theorem aws_getToken_missing_file (w : World) :
  cache (Aws.getToken w).2 = cache w ∧
  env (Aws.getToken w).2 = env w ∧
  files (Aws.getToken w).2 = files w ∧
  (events_since w (Aws.getToken w).2 = [] ∨
   ∃ path, env w !! "AWS_WEB_IDENTITY_TOKEN_FILE" = Some path ∧
           events_since w (Aws.getToken w).2 = [EvReadFile path "utf8"]) ∧
  (∀ path,
     env w !! "AWS_WEB_IDENTITY_TOKEN_FILE" = Some path →
     path ≠ "" →
     files w !! path = None →
     ∃ reason,
       Aws.getToken w = (Err (Rejected reason), emit (EvReadFile path "utf8") w)).
Proof.
  unfold Aws.getToken, Aws.process_env, Aws.readFile, bind, throw, ret.
  destruct (env w !! "AWS_WEB_IDENTITY_TOKEN_FILE") as [path|] eqn:Hpath; simpl.
  - case_bool_decide as Hempty; simpl.
    + split_and!; try done.
      * left. apply events_since_app. by rewrite app_nil_r.
      * intros ? [= <-] ?. done.
    + assert (events_since w (emit (EvReadFile path "utf8") w)
              = [EvReadFile path "utf8"]) as Hev by by apply events_since_app.
      destruct (files w !! path) eqn:Hfile; simpl;
        (split_and!; try done; [right; by exists path|]).
      * intros ? [= <-] _ ?. congruence.
      * intros ? [= <-] _ _. eauto.
  - split_and!; try done. left. apply events_since_app. by rewrite app_nil_r.
Qed.

Lemma aws_getToken_missing_file_witness :
  ∃ reason,
    Aws.getToken aws_world_without_file
    = (Err (Rejected reason),
       emit (EvReadFile "/var/run/token" "utf8") aws_world_without_file).
Proof.
  destruct (aws_getToken_missing_file aws_world_without_file)
    as (_ & _ & _ & _ & Hmissing).
  apply (Hmissing "/var/run/token"); [reflexivity | discriminate | reflexivity].
Defined.

(** ** Cursor identifiers *)

(** X16. The two numbers the constructor of [CursorResponse] passes to
    [new Long] are the low and the high 32-bit words of the cursor id:
    both lie in [0, 2^32), together they give the id modulo 2^64, and
    two signed 64-bit ids with the same words are equal. *)
Theorem cursor_id_words (id : Z) :
  (0 ≤ Responses.long_low id < 2 ^ 32)%Z ∧
  (0 ≤ Responses.long_high id < 2 ^ 32)%Z ∧
  (Responses.long_low id + 2 ^ 32 * Responses.long_high id = id mod 2 ^ 64)%Z ∧
  (∀ id' : Z,
     (- 2 ^ 63 ≤ id < 2 ^ 63)%Z →
     (- 2 ^ 63 ≤ id' < 2 ^ 63)%Z →
     Responses.long_low id' = Responses.long_low id →
     Responses.long_high id' = Responses.long_high id →
     id' = id).
Proof.
  assert (∀ n : Z,
    Responses.long_low n = (n mod 2 ^ 32)%Z ∧
    Responses.long_high n = ((n / 2 ^ 32) mod 2 ^ 32)%Z) as Hwords.
  { intros n. unfold Responses.long_low, Responses.long_high.
    change 0xffffffff%Z with (Z.ones 32).
    rewrite !Z.land_ones, Z.shiftr_div_pow2 by lia. done. }
  assert (∀ n : Z,
    (Responses.long_low n + 2 ^ 32 * Responses.long_high n = n mod 2 ^ 64)%Z)
    as Hsum.
  { intros n. destruct (Hwords n) as [-> ->].
    change (2 ^ 64)%Z with (2 ^ 32 * 2 ^ 32)%Z.
    rewrite Z.rem_mul_r by lia. lia. }
  destruct (Hwords id) as [Hlow Hhigh].
  split; [|split; [|split]].
  - rewrite Hlow. apply Z.mod_pos_bound. lia.
  - rewrite Hhigh. apply Z.mod_pos_bound. lia.
  - apply Hsum.
  - intros id' Hid Hid' Hl Hh.
    pose proof (Hsum id) as H1. pose proof (Hsum id') as H2.
    rewrite Hl, Hh, H1 in H2.
    rewrite !Z.mod_eq in H2 by lia.
    assert (id / 2 ^ 64 = id' / 2 ^ 64)%Z as Hq; [|lia].
    assert (-1 ≤ id / 2 ^ 64 < 1)%Z.
    { split; [apply Z.div_le_lower_bound | apply Z.div_lt_upper_bound]; lia. }
    assert (-1 ≤ id' / 2 ^ 64 < 1)%Z.
    { split; [apply Z.div_le_lower_bound | apply Z.div_lt_upper_bound]; lia. }
    lia.
Qed.

Lemma cursor_id_words_witness :
  (Responses.long_low (-1) + 2 ^ 32 * Responses.long_high (-1) - 2 ^ 64 = -1)%Z.
Proof.
  destruct (cursor_id_words (-1)) as (_ & _ & _ & Hinj).
  apply (Hinj (Responses.long_low (-1) + 2 ^ 32 * Responses.long_high (-1)
               - 2 ^ 64)%Z);
    [lia | vm_compute; split; [intros H; discriminate H | reflexivity]
    | reflexivity | reflexivity].
Defined.

(** ** Single steps of the callback workflow *)

(** X17. [fetchAccessToken] itself never writes the cache: it calls the
    callback once, and what it returns has passed validation. *)
Theorem fetchAccessToken_validates_only
    (connection : Connection) (credentials : MongoCredentials)
    (idpInfo : value) (callbackInfo : OIDCCallbackInfo)
    (fn : OIDCCallbackFunction) (w : World) :
  callback callbackInfo = Some fn →
  cache (fetchAccessToken connection credentials idpInfo callbackInfo w).2
    = cache w ∧
  events_since w (fetchAccessToken connection credentials idpInfo callbackInfo w).2
    = [EvCallback (callback_params idpInfo callbackInfo)] ∧
  ∀ result,
    (fetchAccessToken connection credentials idpInfo callbackInfo w).1 = Ok result →
    fn w (callback_params idpInfo callbackInfo) = Ok result ∧
    isCallbackResultInvalid result = false.
Proof.
  intros Hcb. rewrite (fetchAccessToken_calls _ _ _ _ _ _ Hcb); simpl.
  split_and!; [done | by apply events_since_app |].
  intros result.
  destruct (fn w _) as [r|e]; [|done].
  destruct (isCallbackResultInvalid r) eqn:Hvalid; [done|].
  by intros [= <-].
Qed.

Lemma fetchAccessToken_validates_only_witness :
  cache (fetchAccessToken accepting_connection (sample_credentials None)
           sample_idpInfo
           {| callback := Some (sample_callback "tok1"); isHumanWorkflow := false |}
           (sample_world (Some TokenCache.new))).2
  = Some TokenCache.new.
Proof.
  eapply (fetchAccessToken_validates_only accepting_connection
            (sample_credentials None) sample_idpInfo
            {| callback := Some (sample_callback "tok1"); isHumanWorkflow := false |}
            (sample_callback "tok1") (sample_world (Some TokenCache.new))).
  reflexivity.
Defined.

Section SpeculativeResponse.

Variable ns : string -> MongoDBNamespace.
Variable startCommandDocument : MongoCredentials -> gmap string value.
Variable finishCommandDocument : value -> value -> value.
Variable BSON_deserialize : value -> Result value.

(** X18. With a handshake response that carries the start of the
    conversation and a cache that holds a token, [execute] first selects
    the callback: when the selection throws, [execute] fails with that
    error and sends nothing; otherwise it is a single round trip, the
    finish command built from the cached access token and the
    conversation id of the response, in the world it was called in. *)
Theorem execute_speculative_cached
    (connection : Connection) (credentials : MongoCredentials)
    (response : value) (w : World) (c : TokenCache.t) (idp : value) :
  let speculative := get_property_opt response "speculativeAuthenticate" in
  truthy speculative = true →
  nullish (lookup_chain speculative "payload") = false →
  BSON_deserialize
    (lookup_chain (lookup_chain speculative "payload") "buffer") = Ok idp →
  cache w = Some c →
  TokenCache.hasToken c = true →
  let finish :=
    finishCommandDocument
      (lookup_chain (TokenCache.tokenResult c) "accessToken")
      (lookup_chain speculative "conversationId") in
  execute ns startCommandDocument finishCommandDocument BSON_deserialize
    connection credentials response w
  = match getCallback (mechanismProperties credentials) with
    | Err e => (Err e, w)
    | Ok _ =>
        (command connection w (ns (source credentials)) finish,
         emit (EvCommand (ns (source credentials)) finish) w)
    end.
Proof.
  intros speculative Hspec Hpayload Hidp Hcache Hhit finish.
  destruct (getCallback (mechanismProperties credentials)) as [info|e] eqn:Hinfo.
  2:{ unfold execute, bind, lift. by rewrite Hinfo. }
  assert (nullish response = false) as Hresponse.
  { destruct (nullish response) eqn:Hn; [|done].
    unfold speculative, get_property_opt in Hspec. by rewrite Hn in Hspec. }
  assert (speculative = lookup_chain response "speculativeAuthenticate") as Hs.
  { unfold speculative, get_property_opt. by rewrite Hresponse. }
  assert (nullish speculative = false) as Hnull.
  { by destruct speculative. }
  assert (startConversation ns startCommandDocument BSON_deserialize
            connection credentials response w
          = (Ok (info, lookup_chain speculative "conversationId", idp), w))
    as Hstart.
  { unfold startConversation, startAuthentication.
    unfold bind at 1, lift at 1. rewrite Hinfo.
    unfold bind at 1. fold speculative. rewrite Hspec.
    unfold bind at 1, lift at 1.
    rewrite (get_property_object _ _ Hresponse), <- Hs. unfold ret at 1.
    unfold bind at 1, lift at 1. rewrite (get_property_object _ _ Hnull).
    unfold bind at 1, lift at 1. rewrite (get_property_object _ _ Hnull).
    unfold bind at 1, lift at 1. rewrite (get_property_object _ _ Hpayload).
    unfold bind at 1, lift at 1. by rewrite Hidp. }
  rewrite (execute_hit _ _ _ _ _ _ _ _ _ _ _ _ _ Hstart Hcache Hhit).
  assert (nullish (TokenCache.tokenResult c) = false) as Htoken.
  { unfold TokenCache.hasToken in Hhit. by destruct (TokenCache.tokenResult c). }
  unfold finishAuthentication, bind, lift, ret, connection_command.
  rewrite (get_property_object _ _ Htoken).
  by destruct (command _ _ _ _).
Qed.

End SpeculativeResponse.

Lemma execute_speculative_cached_witness :
  execute sample_ns sample_startCommandDocument sample_finishCommandDocument
    sample_deserialize accepting_connection (sample_credentials None)
    (literal {[ "speculativeAuthenticate" := sample_startDocument ]})
    cached_world
  = (Ok (literal {[ "ok" := JNum 1 ]}),
     emit (EvCommand (sample_ns "$external")
             (sample_finishCommandDocument (JStr "cached") (JNum 7)))
       cached_world) ∧
  execute sample_ns sample_startCommandDocument sample_finishCommandDocument
    sample_deserialize accepting_connection credentials_without_callbacks
    (literal {[ "speculativeAuthenticate" := sample_startDocument ]})
    cached_world
  = (Err (MongoMissingCredentialsError NO_CALLBACK), cached_world).
Proof.
  split.
  - etransitivity.
    + apply (execute_speculative_cached sample_ns sample_startCommandDocument
               sample_finishCommandDocument sample_deserialize
               accepting_connection (sample_credentials None)
               (literal {[ "speculativeAuthenticate" := sample_startDocument ]})
               cached_world
               {| TokenCache.tokenResult :=
                    literal {[ "accessToken" := JStr "cached" ]} |}
               sample_idpInfo);
        vm_compute; reflexivity.
    + vm_compute. reflexivity.
  - etransitivity.
    + apply (execute_speculative_cached sample_ns sample_startCommandDocument
               sample_finishCommandDocument sample_deserialize
               accepting_connection credentials_without_callbacks
               (literal {[ "speculativeAuthenticate" := sample_startDocument ]})
               cached_world
               {| TokenCache.tokenResult :=
                    literal {[ "accessToken" := JStr "cached" ]} |}
               sample_idpInfo);
        vm_compute; reflexivity.
    + reflexivity.
Defined.

Section GcpEffects.

Variable URL_toString : URL -> string.
Variable http_get : World -> string -> RequestOptions -> Result string.

(** X19. The GCP [getToken] makes at most one request, always with
    [json: false] and the [Metadata-Flavor: Google] header, and changes
    nothing else; of the credentials only [TOKEN_AUDIENCE] matters. *)
Theorem gcp_getToken_effects (credentials : option MongoCredentials) (w : World) :
  cache (Gcp.getToken URL_toString http_get credentials w).2 = cache w ∧
  env (Gcp.getToken URL_toString http_get credentials w).2 = env w ∧
  files (Gcp.getToken URL_toString http_get credentials w).2 = files w ∧
  (events_since w (Gcp.getToken URL_toString http_get credentials w).2 = [] ∨
   ∃ uri,
     events_since w (Gcp.getToken URL_toString http_get credentials w).2
     = [EvRequest uri {| json := false;
                         headers := [("Metadata-Flavor", "Google")] |}]) ∧
  (∀ other : option MongoCredentials,
     other ≫= (fun c => TOKEN_AUDIENCE (mechanismProperties c))
       = credentials ≫= (fun c => TOKEN_AUDIENCE (mechanismProperties c)) →
     Gcp.getToken URL_toString http_get other w
     = Gcp.getToken URL_toString http_get credentials w).
Proof.
  assert (∀ other : option MongoCredentials,
     other ≫= (fun c => TOKEN_AUDIENCE (mechanismProperties c))
       = credentials ≫= (fun c => TOKEN_AUDIENCE (mechanismProperties c)) →
     Gcp.getToken URL_toString http_get other w
     = Gcp.getToken URL_toString http_get credentials w) as Hsame.
  { unfold Gcp.getToken. by intros other ->. }
  unfold Gcp.getToken in *.
  destruct (not_str _); simpl.
  - split_and!; try done. left. apply events_since_app. by rewrite app_nil_r.
  - unfold Gcp.getGcpTokenData, Gcp.request, bind in *.
    destruct (http_get _ _ _); simpl; (split_and!; try done);
      right; eexists; by apply events_since_app.
Qed.

End GcpEffects.

Lemma gcp_getToken_effects_witness :
  Gcp.getToken sample_URL_toString sample_http_get
    (Some (sample_credentials None)) (sample_world None)
  = Gcp.getToken sample_URL_toString sample_http_get
      (Some (gcp_credentials None)) (sample_world None).
Proof.
  destruct (gcp_getToken_effects sample_URL_toString sample_http_get
              (Some (gcp_credentials None)) (sample_world None))
    as (_ & _ & _ & _ & Hsame).
  apply Hsame. reflexivity.
Defined.
